(** * MS4525DO / MS4515DO differential pressure driver

    A shallow embedding of [src/drivers/differential_pressure/ms4525/ms4525_airspeed.cpp]
    (PX4 autopilot): the two-phase measure/collect state machine of
    [MEASAirspeed], the decoding of the four response bytes, the conversion
    to pascals and degrees, the error accounting and the address selection
    of [ms4525_airspeed_main].

    Conventions of the embedding.
    - C integers are [Z]; where a conversion to a narrower type happens in
      the source it is written out ([to_int16], [to_uint8], [to_int]).
    - [float] is IEEE 754 binary32 with round-to-nearest-even, every
      operation rounded once, taken from [SpecFloat] at precision 24.
    - The driver object is a record, every method a function from the
      record (and what the outside world answers during the call) to the
      new record and the method's result.
    - The I2C bus, the clock, the work queue and the uORB topic are outside
      the file: a bus transfer is a value handed to the method, the clock is
      read from the same value, the topic is the list of reports published
      so far and the work queue receives the [Schedule] a step returns. *)

From Stdlib Require Import ZArith Lia List Bool QArith Qabs String Ascii.
From Stdlib Require Import Floats.SpecFloat.
From Stdlib Require Import Lqa.
From Stdlib Require Init.Byte Strings.Byte.
Import ListNotations.

Local Open Scope Z_scope.

(** ** C integer types *)

Module CInt.

Definition byte : Type := Init.Byte.byte.

(** Value of a [uint8_t] after integer promotion. *)
Definition u8 (b : byte) : Z := Z.of_N (Byte.to_N b).

Definition to_uint8 (z : Z) : Z := z mod 2 ^ 8.

(** Conversion to [int16_t]: two's complement wrap-around. *)
Definition to_int16 (z : Z) : Z := (z + 2 ^ 15) mod 2 ^ 16 - 2 ^ 15.

(** Conversion to [int] (32 bits on every PX4 target). *)
Definition to_int (z : Z) : Z := (z + 2 ^ 31) mod 2 ^ 32 - 2 ^ 31.

Definition INT_MAX : Z := 2 ^ 31 - 1.
Definition INT_MIN : Z := - 2 ^ 31.

Definition is_int (z : Z) : Prop := INT_MIN <= z <= INT_MAX.
Definition is_int16 (z : Z) : Prop := - 2 ^ 15 <= z < 2 ^ 15.

End CInt.
Import CInt.

(** ** binary32 arithmetic *)

Module F32.

Definition prec : Z := 24.
Definition emax : Z := 128.

Definition t : Type := spec_float.

(** Conversion of an integer to [float]. *)
Definition of_int (z : Z) : t := binary_normalize prec emax z 0 false.

Definition add : t -> t -> t := SFadd prec emax.
Definition sub : t -> t -> t := SFsub prec emax.
Definition mul : t -> t -> t := SFmul prec emax.
Definition div : t -> t -> t := SFdiv prec emax.
Definition neg : t -> t := SFopp.

(** A decimal literal [num/den] with the [f] suffix: the binary32 number
    nearest to the quotient.  Both integers must be below [2^24] so that
    the single rounding is the one of the division. *)
Definition lit (num den : Z) : t := div (of_int num) (of_int den).

Definition is_finite (x : t) : bool :=
  match x with
  | S754_zero _ | S754_finite _ _ _ => true
  | _ => false
  end.

(** The rational a finite binary32 number stands for (0 for the others). *)
Definition to_Q (x : t) : Q :=
  match x with
  | S754_finite s m e =>
      let v := match e with
               | Zneg p => Qmake (Zpos m) (Pos.pow 2 p)
               | _ => inject_Z (Zpos m * 2 ^ e)
               end in
      if s then Qopp v else v
  | _ => 0%Q
  end.

End F32.

(** ** Performance counters *)

(** Modelled from the spec: the perf counter library ([perf_alloc],
    [perf_count], [perf_begin], [perf_end], [perf_event_count]) is not part of
    the driver's file.  A [PC_COUNT] counter is the number of events counted
    so far, [perf_count] adds one event and [perf_event_count] reads the
    number ("a monotonic error counter").  A [PC_ELAPSED] counter brackets an
    interval: [perf_begin] opens it and [perf_end] closes an open one and
    counts it. *)
Module Perf.

Definition count_t : Type := Z.

Definition perf_count (c : count_t) : count_t := c + 1.
Definition perf_event_count (c : count_t) : Z := c.

Record elapsed_t : Type := mk_elapsed { running : bool; completed : Z }.

Definition perf_begin (c : elapsed_t) : elapsed_t :=
  {| running := true; completed := completed c |}.

Definition perf_end (c : elapsed_t) : elapsed_t :=
  if running c
  then {| running := false; completed := completed c + 1 |}
  else c.

End Perf.

(** ** Constants of the driver *)

Definition DEVICE_TYPE_MS4515 : Z := 4515.
Definition DEVICE_TYPE_MS4525 : Z := 4525.

Definition I2C_ADDRESS_MS4515DO : Z := 0x46.
Definition I2C_ADDRESS_MS4525DO : Z := 0x28.

Definition ADDR_READ_MR : Z := 0x00.

Definition MEAS_RATE : Z := 100.
Definition CONVERSION_INTERVAL : Z := 1000000 / MEAS_RATE.

(** Result codes.  [OK] and [PX4_OK] are 0; [EAGAIN] is errno 11 on NuttX
    and on POSIX hosts. *)
Definition OK : Z := 0.
Definition PX4_OK : Z := 0.
Definition EAGAIN : Z := 11.

(** ** The published message *)

(** [sensor_differential_pressure_s].  The message declaration is generated
    outside the driver's file; the fields are the ones [collect] assigns,
    [error_count] wide enough for the count it is given. *)
Record sensor_differential_pressure_s : Type := mk_report {
  timestamp : Z;
  timestamp_sample : Z;
  device_id : Z;
  differential_pressure_pa : F32.t;
  temperature : F32.t;
  error_count : Z
}.

(** ** What the outside world answers *)

(** The four bytes [val[0] .. val[3]] of the receive buffer. *)
Record val4 : Type := mk_val4 { val0 : byte; val1 : byte; val2 : byte; val3 : byte }.

(** One call of [collect]: the two clock readings and the outcome of
    [transfer(nullptr, 0, &val[0], 4)]. *)
Record collect_io : Type := mk_collect_io {
  hrt_sample : Z;        (* hrt_absolute_time() before the read *)
  transfer_ret : Z;      (* result of the read *)
  val : val4;            (* buffer after the read *)
  hrt_publish : Z        (* hrt_absolute_time() when the report is filled *)
}.

(** One call of [RunImpl]: the answers to [collect] and the result of the
    command write of [measure]. *)
Record run_io : Type := mk_run_io {
  io_collect : collect_io;
  io_measure_ret : Z
}.

(** What a step asks of the work queue. *)
Inductive Schedule : Type :=
| ScheduleNow
| ScheduleDelayed (delay_us : Z).

(** ** The driver object *)

Record MEASAirspeed : Type := mk_MEASAirspeed {
  _sensor_ok : bool;
  _measure_interval : Z;
  _collect_phase : bool;
  _conversion_interval : Z;
  _dp_raw_prev : Z;
  _dT_raw_prev : Z;
  (* reports handed to the topic so far, the latest first *)
  _differential_pressure_pub : list sensor_differential_pressure_s;
  _sample_perf : Perf.elapsed_t;
  _comms_errors : Perf.count_t;
  get_device_id : Z
}.

(** The object after construction: the member initialisers of the class. *)
Definition MEASAirspeed_new (dev_id : Z) : MEASAirspeed :=
  {| _sensor_ok := false;
     _measure_interval := 0;
     _collect_phase := false;
     _conversion_interval := 0;
     _dp_raw_prev := 0;
     _dT_raw_prev := 0;
     _differential_pressure_pub := [];
     _sample_perf := {| Perf.running := false; Perf.completed := 0 |};
     _comms_errors := 0;
     get_device_id := dev_id |}.

Definition set_sensor_ok (b : bool) (d : MEASAirspeed) : MEASAirspeed :=
  {| _sensor_ok := b;
     _measure_interval := _measure_interval d;
     _collect_phase := _collect_phase d;
     _conversion_interval := _conversion_interval d;
     _dp_raw_prev := _dp_raw_prev d;
     _dT_raw_prev := _dT_raw_prev d;
     _differential_pressure_pub := _differential_pressure_pub d;
     _sample_perf := _sample_perf d;
     _comms_errors := _comms_errors d;
     get_device_id := get_device_id d |}.

Definition set_collect_phase (b : bool) (d : MEASAirspeed) : MEASAirspeed :=
  {| _sensor_ok := _sensor_ok d;
     _measure_interval := _measure_interval d;
     _collect_phase := b;
     _conversion_interval := _conversion_interval d;
     _dp_raw_prev := _dp_raw_prev d;
     _dT_raw_prev := _dT_raw_prev d;
     _differential_pressure_pub := _differential_pressure_pub d;
     _sample_perf := _sample_perf d;
     _comms_errors := _comms_errors d;
     get_device_id := get_device_id d |}.

Definition set_raw_prev (dp dT : Z) (d : MEASAirspeed) : MEASAirspeed :=
  {| _sensor_ok := _sensor_ok d;
     _measure_interval := _measure_interval d;
     _collect_phase := _collect_phase d;
     _conversion_interval := _conversion_interval d;
     _dp_raw_prev := dp;
     _dT_raw_prev := dT;
     _differential_pressure_pub := _differential_pressure_pub d;
     _sample_perf := _sample_perf d;
     _comms_errors := _comms_errors d;
     get_device_id := get_device_id d |}.

(** [_differential_pressure_pub.publish(report)] *)
Definition publish (report : sensor_differential_pressure_s) (d : MEASAirspeed) : MEASAirspeed :=
  {| _sensor_ok := _sensor_ok d;
     _measure_interval := _measure_interval d;
     _collect_phase := _collect_phase d;
     _conversion_interval := _conversion_interval d;
     _dp_raw_prev := _dp_raw_prev d;
     _dT_raw_prev := _dT_raw_prev d;
     _differential_pressure_pub := report :: _differential_pressure_pub d;
     _sample_perf := _sample_perf d;
     _comms_errors := _comms_errors d;
     get_device_id := get_device_id d |}.

(** [perf_count(_comms_errors)] *)
Definition count_comms_error (d : MEASAirspeed) : MEASAirspeed :=
  {| _sensor_ok := _sensor_ok d;
     _measure_interval := _measure_interval d;
     _collect_phase := _collect_phase d;
     _conversion_interval := _conversion_interval d;
     _dp_raw_prev := _dp_raw_prev d;
     _dT_raw_prev := _dT_raw_prev d;
     _differential_pressure_pub := _differential_pressure_pub d;
     _sample_perf := _sample_perf d;
     _comms_errors := Perf.perf_count (_comms_errors d);
     get_device_id := get_device_id d |}.

Definition with_sample_perf (f : Perf.elapsed_t -> Perf.elapsed_t) (d : MEASAirspeed)
  : MEASAirspeed :=
  {| _sensor_ok := _sensor_ok d;
     _measure_interval := _measure_interval d;
     _collect_phase := _collect_phase d;
     _conversion_interval := _conversion_interval d;
     _dp_raw_prev := _dp_raw_prev d;
     _dT_raw_prev := _dT_raw_prev d;
     _differential_pressure_pub := _differential_pressure_pub d;
     _sample_perf := f (_sample_perf d);
     _comms_errors := _comms_errors d;
     get_device_id := get_device_id d |}.

(** [perf_begin(_sample_perf)] and [perf_end(_sample_perf)] *)
Definition begin_sample_perf : MEASAirspeed -> MEASAirspeed := with_sample_perf Perf.perf_begin.
Definition end_sample_perf : MEASAirspeed -> MEASAirspeed := with_sample_perf Perf.perf_end.

(** ** [MEASAirspeed::measure] *)

(** [ret] is the result of [transfer(&cmd, 1, nullptr, 0)] with [cmd = 0]. *)
Definition measure (ret : Z) (d : MEASAirspeed) : MEASAirspeed * Z :=
  let d := if negb (OK =? ret) then count_comms_error d else d in
  (d, ret).

(** ** [MEASAirspeed::collect] *)

(** [uint8_t status = (val[0] & 0xC0) >> 6] *)
Definition status_of (v : val4) : Z :=
  to_uint8 (Z.shiftr (Z.land (u8 (val0 v)) 0xC0) 6).

(** [int16_t dp_raw = (0x3FFF & ((val[0] << 8) + val[1]))] *)
Definition dp_raw_of (v : val4) : Z :=
  to_int16 (Z.land 0x3FFF (Z.shiftl (u8 (val0 v)) 8 + u8 (val1 v))).

(** [int16_t dT_raw = (0xFFE0 & ((val[2] << 8) + val[3])) >> 5] *)
Definition dT_raw_of (v : val4) : Z :=
  to_int16 (Z.shiftr (Z.land 0xFFE0 (Z.shiftl (u8 (val2 v)) 8 + u8 (val3 v))) 5).

(** [float temperature = ((200.0f * dT_raw) / 2047) - 50] *)
Definition temperature_of (dT_raw : Z) : F32.t :=
  F32.sub (F32.div (F32.mul (F32.lit 200 1) (F32.of_int dT_raw)) (F32.of_int 2047))
          (F32.of_int 50).

Definition P_min : F32.t := F32.neg (F32.lit 1 1).
Definition P_max : F32.t := F32.lit 1 1.
Definition PSI_to_Pa : F32.t := F32.lit 6894757 1000.

(** [float diff_press_PSI =
       -((dp_raw - 0.1f * 16383) * (P_max - P_min) / (0.8f * 16383) + P_min)] *)
Definition diff_press_PSI_of (dp_raw : Z) : F32.t :=
  F32.neg
    (F32.add
       (F32.div
          (F32.mul
             (F32.sub (F32.of_int dp_raw) (F32.mul (F32.lit 1 10) (F32.of_int 16383)))
             (F32.sub P_max P_min))
          (F32.mul (F32.lit 8 10) (F32.of_int 16383)))
       P_min).

(** [float diff_press_pa_raw = diff_press_PSI * PSI_to_Pa] *)
Definition diff_press_pa_raw_of (dp_raw : Z) : F32.t :=
  F32.mul (diff_press_PSI_of dp_raw) PSI_to_Pa.

Definition collect (io : collect_io) (d : MEASAirspeed) : MEASAirspeed * Z :=
  let d := begin_sample_perf d in
  let timestamp_sample := hrt_sample io in
  let ret := transfer_ret io in
  if ret <? 0 then
    (end_sample_perf (count_comms_error d), ret)
  else
    match status_of (val io) with
    | 1 => (* Reserved *)
        (d, - EAGAIN)
    | 2 => (* Stale Data *)
        (d, - EAGAIN)
    | 3 => (* Fault Detected *)
        (end_sample_perf (count_comms_error d), - EAGAIN)
    | _ => (* case 0, Normal Operation: leave the switch *)
        let dp_raw := dp_raw_of (val io) in
        let dT_raw := dT_raw_of (val io) in
        if dT_raw =? 2047 then
          (count_comms_error d, - EAGAIN)
        else
          let d :=
            if negb (dp_raw =? _dp_raw_prev d) && negb (dT_raw =? _dT_raw_prev d) then
              let d := set_raw_prev dp_raw dT_raw d in
              let temperature := temperature_of dT_raw in
              let diff_press_pa_raw := diff_press_pa_raw_of dp_raw in
              let report :=
                {| timestamp_sample := timestamp_sample;
                   device_id := get_device_id d;
                   differential_pressure_pa := diff_press_pa_raw;
                   temperature := temperature;
                   error_count := Perf.perf_event_count (_comms_errors d);
                   timestamp := hrt_publish io |} in
              publish report d
            else d in
          (end_sample_perf d, PX4_OK)
    end.

(** ** [MEASAirspeed::RunImpl] *)

(** The measurement phase, the tail of [RunImpl]. *)
Definition measurement_phase (measure_ret : Z) (d : MEASAirspeed) : MEASAirspeed * Schedule :=
  let '(d, ret) := measure measure_ret d in
  let d := set_sensor_ok (ret =? OK) d in
  let d := set_collect_phase true d in
  (d, ScheduleDelayed CONVERSION_INTERVAL).

Definition RunImpl (io : run_io) (d : MEASAirspeed) : MEASAirspeed * Schedule :=
  if _collect_phase d then
    let '(d, ret) := collect (io_collect io) d in
    if negb (OK =? ret) then
      (* restart the measurement state machine *)
      let d := set_collect_phase false d in
      let d := set_sensor_ok false d in
      (d, ScheduleNow)
    else
      let d := set_collect_phase false d in
      if _measure_interval d >? CONVERSION_INTERVAL then
        (* the difference is computed in [int] *)
        (d, ScheduleDelayed (to_int (_measure_interval d - CONVERSION_INTERVAL)))
      else
        measurement_phase (io_measure_ret io) d
  else
    measurement_phase (io_measure_ret io) d.

(** ** The work queue *)

(** Modelled from the spec: [ScheduleNow] and [ScheduleDelayed] belong to the
    work queue, which is not part of the driver's file.  "The step then
    schedules itself after a fixed conversion interval": a step that asks for
    a delay is run again that many microseconds later, one that asks for
    [ScheduleNow] with no added delay. *)
Definition delay_of (s : Schedule) : Z :=
  match s with
  | ScheduleNow => 0
  | ScheduleDelayed us => us
  end.

(** The driver on its work queue: [wq_due] is the time the next call of
    [RunImpl] is due. *)
Record work_item : Type := mk_work_item { wq_due : Z; wq_driver : MEASAirspeed }.

Definition wq_step (io : run_io) (w : work_item) : work_item :=
  let '(d, s) := RunImpl io (wq_driver w) in
  {| wq_due := wq_due w + delay_of s; wq_driver := d |}.

(** The driver after a sequence of steps. *)
Definition run (ios : list run_io) (d : MEASAirspeed) : MEASAirspeed :=
  fold_left (fun d io => fst (RunImpl io d)) ios d.

(** ** Observations on a call of [collect] *)

Definition raw_prev (d : MEASAirspeed) : Z * Z := (_dp_raw_prev d, _dT_raw_prev d).

(** Nothing was published between [d] and [d']. *)
Definition no_publish (d d' : MEASAirspeed) : Prop :=
  _differential_pressure_pub d' = _differential_pressure_pub d.

(** Exactly the report [r] was published between [d] and [d']. *)
Definition published (r : sensor_differential_pressure_s) (d d' : MEASAirspeed) : Prop :=
  _differential_pressure_pub d' = r :: _differential_pressure_pub d.

(** The status codes of the sensor. *)
Definition STATUS_NORMAL : Z := 0.
Definition STATUS_RESERVED : Z := 1.
Definition STATUS_STALE : Z := 2.
Definition STATUS_FAULT : Z := 3.

(** The two status bits as the sensor sends them: bit 7 and bit 6 of byte 0. *)
Definition status_bits (v : val4) : bool * bool :=
  (Z.testbit (u8 (val0 v)) 7, Z.testbit (u8 (val0 v)) 6).

(** The bus read failed. *)
Definition transport_fault (io : collect_io) : Prop := transfer_ret io < 0.

(** The read went through and the response is a fault or stale, or its
    temperature count is saturated. *)
Definition protocol_fault (io : collect_io) : Prop :=
  0 <= transfer_ret io /\
  (status_of (val io) = STATUS_FAULT \/ status_of (val io) = STATUS_STALE \/
   dT_raw_of (val io) = 2047).

(** The conditions under which [collect] does not return [PX4_OK]. *)
Definition collect_fails (io : collect_io) : Prop :=
  transfer_ret io < 0 \/ status_of (val io) <> STATUS_NORMAL \/ dT_raw_of (val io) = 2047.

(** The failures that [collect] counts in [_comms_errors]. *)
Definition counted_failure (io : collect_io) : Prop :=
  transfer_ret io < 0 \/
  (0 <= transfer_ret io /\ status_of (val io) = STATUS_FAULT) \/
  (0 <= transfer_ret io /\ status_of (val io) = STATUS_NORMAL /\ dT_raw_of (val io) = 2047).

(** What a step does when it restarts the state machine. *)
Definition hard_reset (r : MEASAirspeed * Schedule) : Prop :=
  _collect_phase (fst r) = false /\ _sensor_ok (fst r) = false /\ snd r = ScheduleNow.

(** ** [ms4525_airspeed_main] *)

Inductive command : Type :=
| print_usage      (* usage text, exit code -1 *)
| module_start
| module_stop
| module_status.

(** How [main] ends: the address it stored in [cli.i2c_address] ([None] when
    it returned before the assignment) and what it went on to do. *)
Record main_result : Type := mk_main_result {
  cli_i2c_address : option Z;
  dispatched : command
}.

Section Main.

(** [atoi] of the C library. *)
Variable atoi : string -> Z.

(** The [while] loop over [cli.getopt(argc, argv, "T:")]: [opts] lists, call
    after call until [EOF], the character returned and [cli.optarg()]. *)
Definition getopt_loop (opts : list (ascii * string)) (device_type : Z) : Z :=
  fold_left
    (fun device_type o =>
       if Ascii.eqb (fst o) "T" then atoi (snd o) else device_type)
    opts device_type.

(** [verb] is [cli.optarg()] after the loop, [None] for a null pointer. *)
Definition ms4525_airspeed_main (opts : list (ascii * string)) (verb : option string)
  : main_result :=
  let device_type := getopt_loop opts DEVICE_TYPE_MS4525 in
  match verb with
  | None => {| cli_i2c_address := None; dispatched := print_usage |}
  | Some verb =>
      let i2c_address :=
        if device_type =? DEVICE_TYPE_MS4525
        then I2C_ADDRESS_MS4525DO
        else I2C_ADDRESS_MS4515DO in
      {| cli_i2c_address := Some i2c_address;
         dispatched :=
           if String.eqb verb "start" then module_start
           else if String.eqb verb "stop" then module_stop
           else if String.eqb verb "status" then module_status
           else print_usage |}
  end.

End Main.

(** An [atoi] as the C library specifies it, for numbers that fit an [int]:
    white space, an optional sign, then decimal digits up to the first
    character that is none; 0 when there is no digit. *)
Module CLib.

Definition is_space (c : ascii) : bool :=
  let n := nat_of_ascii c in
  (Nat.eqb n 32 || (Nat.leb 9 n && Nat.leb n 13))%bool.

Definition digit_of (c : ascii) : option Z :=
  let n := Z.of_nat (nat_of_ascii c) in
  if (48 <=? n) && (n <=? 57) then Some (n - 48) else None.

Fixpoint digits (s : string) (acc : Z) : Z :=
  match s with
  | EmptyString => acc
  | String c s' =>
      match digit_of c with
      | Some k => digits s' (10 * acc + k)
      | None => acc
      end
  end.

Fixpoint atoi (s : string) : Z :=
  match s with
  | EmptyString => 0
  | String c s' =>
      if is_space c then atoi s'
      else if Ascii.eqb c "-" then - digits s' 0
      else if Ascii.eqb c "+" then digits s' 0
      else digits s 0
  end.

End CLib.

(** ** The conversions as the specification words them *)

Module Spec.

(** "the big-endian 16-bit word formed from bytes" [hi], [lo] *)
Definition word16_be (hi lo : byte) : Z := u8 hi * 2 ^ 8 + u8 lo.

(** "the 14 low bits" of the word of bytes 0 and 1 *)
Definition pressure_count (v : val4) : Z := word16_be (val0 v) (val1 v) mod 2 ^ 14.

(** the word of bytes 2 and 3 "masked with 0xFFE0 then shifted right by 5" *)
Definition temperature_count (v : val4) : Z :=
  Z.shiftr (Z.land (word16_be (val2 v) (val3 v)) 0xFFE0) 5.

Local Open Scope Q_scope.

(** temperature_degrees = (200.0 x temperature_count / 2047) - 50 *)
Definition temperature_degrees (temperature_count : Z) : Q :=
  (200 * inject_Z temperature_count / 2047) - 50.

Definition P_min : Q := - (1).
Definition P_max : Q := 1.

(** pressure_psi =
    -((pressure_count - 0.1 x 16383) x (P_max - P_min) / (0.8 x 16383) + P_min) *)
Definition pressure_psi (pressure_count : Z) : Q :=
  - ((inject_Z pressure_count - (1 # 10) * 16383) * (P_max - P_min)
       / ((8 # 10) * 16383) + P_min).

(** pressure_pascals = pressure_psi x 6894.757 *)
Definition pressure_pascals (pressure_count : Z) : Q :=
  pressure_psi pressure_count * (6894757 # 1000).

End Spec.

(** Checks used to cover a whole range of counts by evaluation. *)

Fixpoint zrange (lo : Z) (n : nat) : list Z :=
  match n with
  | O => []
  | S k => lo :: zrange (lo + 1) k
  end.

Definition close_to (x : F32.t) (q tol : Q) : bool :=
  F32.is_finite x && Qle_bool (Qabs (F32.to_Q x - q)) tol.

Definition temperature_tol : Q := 1 # 100000.
Definition pressure_tol : Q := 1 # 500.

Definition temperature_check (dT : Z) : bool :=
  close_to (temperature_of dT) (Spec.temperature_degrees dT) temperature_tol.

Definition pressure_check (dp : Z) : bool :=
  close_to (diff_press_pa_raw_of dp) (Spec.pressure_pascals dp) pressure_tol.

(** ** The paths through [collect] *)

(** The report [collect] fills in when it accepts a sample. *)
Definition report_of (io : collect_io) (d : MEASAirspeed) : sensor_differential_pressure_s :=
  {| timestamp_sample := hrt_sample io;
     device_id := get_device_id d;
     differential_pressure_pa := diff_press_pa_raw_of (dp_raw_of (val io));
     temperature := temperature_of (dT_raw_of (val io));
     error_count := Perf.perf_event_count (_comms_errors d);
     timestamp := hrt_publish io |}.

(** Every call of [collect] takes one of the seven paths. *)
Inductive collect_path (io : collect_io) (d : MEASAirspeed) : MEASAirspeed * Z -> Prop :=
| path_bus_error :
    transfer_ret io < 0 ->
    collect_path io d
      (end_sample_perf (count_comms_error (begin_sample_perf d)), transfer_ret io)
| path_reserved :
    0 <= transfer_ret io -> status_of (val io) = STATUS_RESERVED ->
    collect_path io d (begin_sample_perf d, - EAGAIN)
| path_stale :
    0 <= transfer_ret io -> status_of (val io) = STATUS_STALE ->
    collect_path io d (begin_sample_perf d, - EAGAIN)
| path_fault :
    0 <= transfer_ret io -> status_of (val io) = STATUS_FAULT ->
    collect_path io d
      (end_sample_perf (count_comms_error (begin_sample_perf d)), - EAGAIN)
| path_saturated :
    0 <= transfer_ret io -> status_of (val io) = STATUS_NORMAL ->
    dT_raw_of (val io) = 2047 ->
    collect_path io d (count_comms_error (begin_sample_perf d), - EAGAIN)
| path_unchanged :
    0 <= transfer_ret io -> status_of (val io) = STATUS_NORMAL ->
    dT_raw_of (val io) <> 2047 ->
    dp_raw_of (val io) = _dp_raw_prev d \/ dT_raw_of (val io) = _dT_raw_prev d ->
    collect_path io d (end_sample_perf (begin_sample_perf d), PX4_OK)
| path_accepted :
    0 <= transfer_ret io -> status_of (val io) = STATUS_NORMAL ->
    dT_raw_of (val io) <> 2047 ->
    dp_raw_of (val io) <> _dp_raw_prev d -> dT_raw_of (val io) <> _dT_raw_prev d ->
    collect_path io d
      (end_sample_perf
         (publish (report_of io d)
            (set_raw_prev (dp_raw_of (val io)) (dT_raw_of (val io))
               (begin_sample_perf d))),
       PX4_OK).

(** ** Example inputs *)

(** Status Normal, pressure count 8192 (mid-scale), temperature count 800. *)
Definition normal_val : val4 := mk_val4 Byte.x20 Byte.x00 Byte.x64 Byte.x00.
(** Status Fault (bits 11). *)
Definition fault_val : val4 := mk_val4 Byte.xe0 Byte.x00 Byte.x64 Byte.x00.
(** Status Stale (bits 10). *)
Definition stale_val : val4 := mk_val4 Byte.xa0 Byte.x00 Byte.x64 Byte.x00.
(** Status Reserved (bits 01). *)
Definition reserved_val : val4 := mk_val4 Byte.x60 Byte.x00 Byte.x64 Byte.x00.
(** Status Normal, temperature count 2047. *)
Definition saturated_val : val4 := mk_val4 Byte.x20 Byte.x00 Byte.xff Byte.xe0.

Definition read_of (ret : Z) (v : val4) : collect_io :=
  {| hrt_sample := 1000; transfer_ret := ret; val := v; hrt_publish := 1005 |}.

Definition step_of (ret : Z) (v : val4) (measure_ret : Z) : run_io :=
  {| io_collect := read_of ret v; io_measure_ret := measure_ret |}.

(** A driver that has just sent its first measurement command. *)
Definition collecting_driver : MEASAirspeed :=
  fst (RunImpl (step_of 0 normal_val 0) (MEASAirspeed_new 1)).

(** A driver configured with a poll interval of 50 ms, in the COLLECT phase. *)
Definition slow_collecting_driver : MEASAirspeed :=
  {| _sensor_ok := true;
     _measure_interval := 50000;
     _collect_phase := true;
     _conversion_interval := 0;
     _dp_raw_prev := 0;
     _dT_raw_prev := 0;
     _differential_pressure_pub := [];
     _sample_perf := {| Perf.running := false; Perf.completed := 0 |};
     _comms_errors := 0;
     get_device_id := 1 |}.

(** ** [MEASAirspeed::instantiate] *)

(** [alloc_ok] tells whether [new] returned an object, [init_ret] is the
    result of [instance->init()].  On success the object is handed back
    together with the [ScheduleNow] that starts it. *)
Definition instantiate (alloc_ok : bool) (init_ret : Z) (dev_id : Z)
  : option (MEASAirspeed * Schedule) :=
  if negb alloc_ok then
    None
  else
    let instance := MEASAirspeed_new dev_id in
    if negb (init_ret =? PX4_OK) then
      None
    else
      Some (instance, ScheduleNow).

(** ** Observations on runs *)

(** The work item after a sequence of steps. *)
Definition wq_run (ios : list run_io) (w : work_item) : work_item :=
  fold_left (fun w io => wq_step io w) ios w.

(** The cache holds counts that [collect] can have accepted. *)
Definition cache_in_range (d : MEASAirspeed) : Prop :=
  0 <= _dp_raw_prev d < 2 ^ 14 /\ 0 <= _dT_raw_prev d < 2047.




(** None of the options handed out by [getopt] is [-T]. *)
Definition no_T (opts : list (ascii * string)) : bool :=
  forallb (fun o => negb (Ascii.eqb (fst o) "T")) opts.

(** What holds of a driver made by the constructor, whatever it has run. *)
Definition started (d : MEASAirspeed) : Prop :=
  _measure_interval d = 0 /\ (_collect_phase d = false -> _sensor_ok d = false).


(** The pressure in pascals as a rational. *)
Definition pa_Q (dp : Z) : Q := F32.to_Q (diff_press_pa_raw_of dp).

(** The temperature in degrees as a rational. *)
Definition degrees_Q (dT : Z) : Q := F32.to_Q (temperature_of dT).

(** 1.25 psi in pascals, rounded up to a hundredth. *)
Definition pa_max : Q := 861845 # 100.


(** The response with another read result. *)
Definition with_transfer_ret (ret : Z) (io : collect_io) : collect_io :=
  {| hrt_sample := hrt_sample io;
     transfer_ret := ret;
     val := val io;
     hrt_publish := hrt_publish io |}.

(** A report a subscriber can rely on: it names the device, its values are
    finite and within the range of the sensor, its error count is a count. *)
Definition report_well_formed (dev_id : Z) (r : sensor_differential_pressure_s) : Prop :=
  device_id r = dev_id /\
  0 <= error_count r /\
  F32.is_finite (temperature r) = true /\
  F32.is_finite (differential_pressure_pa r) = true /\
  (- (50) <= F32.to_Q (temperature r))%Q /\
  (F32.to_Q (temperature r) < 150)%Q /\
  (Qabs (F32.to_Q (differential_pressure_pa r)) <= pa_max)%Q.

Definition topic_well_formed (dev_id : Z) (d : MEASAirspeed) : Prop :=
  get_device_id d = dev_id /\
  0 <= _comms_errors d /\
  Forall (report_well_formed dev_id) (_differential_pressure_pub d).

(** * Properties *)

(** ** Bytes and words *)

Lemma u8_range (b : byte) : 0 <= u8 b < 2 ^ 8.
Proof.
  unfold u8. pose proof (Byte.to_N_bounded b) as H.
  change (2 ^ 8) with 256. lia.
Qed.

Lemma shiftl8_word (hi lo : byte) :
  Z.shiftl (u8 hi) 8 + u8 lo = Spec.word16_be hi lo.
Proof.
  unfold Spec.word16_be. now rewrite Z.shiftl_mul_pow2 by lia.
Qed.

Lemma word16_be_range (hi lo : byte) : 0 <= Spec.word16_be hi lo < 2 ^ 16.
Proof.
  unfold Spec.word16_be.
  pose proof (u8_range hi). pose proof (u8_range lo).
  change (2 ^ 8) with 256 in *. change (2 ^ 16) with 65536. lia.
Qed.

Lemma to_int16_small (z : Z) : is_int16 z -> to_int16 z = z.
Proof.
  unfold is_int16, to_int16. intros H.
  rewrite Z.mod_small; change (2 ^ 15) with 32768 in *; change (2 ^ 16) with 65536; lia.
Qed.

Lemma to_int_small (z : Z) : is_int z -> to_int z = z.
Proof.
  unfold is_int, INT_MIN, INT_MAX, to_int. intros H.
  rewrite Z.mod_small; change (2 ^ 31) with 2147483648 in *;
    change (2 ^ 32) with 4294967296; lia.
Qed.

(** Masking with [0x3FFF] keeps the 14 low bits. *)
Lemma land_3FFF (w : Z) : Z.land 0x3FFF w = w mod 2 ^ 14.
Proof.
  rewrite Z.land_comm. change 0x3FFF with (Z.ones 14).
  now rewrite Z.land_ones by lia.
Qed.

(** Masking with [0xFFE0] and shifting by 5 keeps bits 5 to 15. *)
Lemma land_FFE0_shiftr (w : Z) :
  Z.shiftr (Z.land 0xFFE0 w) 5 = (w / 2 ^ 5) mod 2 ^ 11.
Proof.
  rewrite Z.shiftr_land. change (Z.shiftr 0xFFE0 5) with (Z.ones 11).
  rewrite Z.land_comm, Z.land_ones by lia.
  now rewrite Z.shiftr_div_pow2 by lia.
Qed.

Lemma dp_raw_of_spec (v : val4) : dp_raw_of v = Spec.pressure_count v.
Proof.
  unfold dp_raw_of, Spec.pressure_count.
  rewrite shiftl8_word, land_3FFF.
  apply to_int16_small. unfold is_int16.
  pose proof (Z.mod_pos_bound (Spec.word16_be (val0 v) (val1 v)) (2 ^ 14)).
  change (2 ^ 14) with 16384 in *. change (2 ^ 15) with 32768. lia.
Qed.

Lemma dT_raw_of_div (v : val4) :
  dT_raw_of v = Spec.word16_be (val2 v) (val3 v) / 2 ^ 5.
Proof.
  unfold dT_raw_of. rewrite shiftl8_word, land_FFE0_shiftr.
  pose proof (word16_be_range (val2 v) (val3 v)) as Hw.
  assert (0 <= Spec.word16_be (val2 v) (val3 v) / 2 ^ 5 < 2 ^ 11) as Hq.
  { change (2 ^ 16) with (2 ^ 5 * 2 ^ 11) in Hw. split.
    - apply Z.div_pos; lia.
    - apply Z.div_lt_upper_bound; lia. }
  rewrite Z.mod_small by exact Hq.
  apply to_int16_small. unfold is_int16.
  change (2 ^ 11) with 2048 in Hq. change (2 ^ 15) with 32768. lia.
Qed.

Lemma dT_raw_of_spec (v : val4) : dT_raw_of v = Spec.temperature_count v.
Proof.
  rewrite dT_raw_of_div. unfold Spec.temperature_count.
  rewrite Z.land_comm, land_FFE0_shiftr.
  pose proof (word16_be_range (val2 v) (val3 v)) as Hw.
  symmetry. apply Z.mod_small.
  change (2 ^ 16) with (2 ^ 5 * 2 ^ 11) in Hw. split.
  - apply Z.div_pos; lia.
  - apply Z.div_lt_upper_bound; lia.
Qed.

Lemma dp_raw_of_range (v : val4) : 0 <= dp_raw_of v < 2 ^ 14.
Proof.
  rewrite dp_raw_of_spec. unfold Spec.pressure_count.
  apply Z.mod_pos_bound. lia.
Qed.

Lemma dT_raw_of_range (v : val4) : 0 <= dT_raw_of v < 2 ^ 11.
Proof.
  rewrite dT_raw_of_div.
  pose proof (word16_be_range (val2 v) (val3 v)) as Hw.
  change (2 ^ 16) with (2 ^ 5 * 2 ^ 11) in Hw. split.
  - apply Z.div_pos; lia.
  - apply Z.div_lt_upper_bound; lia.
Qed.

(** The status is the two top bits of byte 0, one of the four codes. *)
Lemma status_of_div (v : val4) : status_of v = u8 (val0 v) / 2 ^ 6.
Proof.
  unfold status_of, to_uint8.
  pose proof (u8_range (val0 v)) as Hb.
  assert (Z.shiftr (Z.land (u8 (val0 v)) 0xC0) 6 = u8 (val0 v) / 2 ^ 6) as ->.
  { rewrite Z.shiftr_land. change (Z.shiftr 0xC0 6) with (Z.ones 2).
    rewrite Z.land_ones, Z.shiftr_div_pow2 by lia.
    apply Z.mod_small. change (2 ^ 8) with (2 ^ 6 * 2 ^ 2) in Hb. split.
    - apply Z.div_pos; lia.
    - apply Z.div_lt_upper_bound; lia. }
  apply Z.mod_small. change (2 ^ 8) with (2 ^ 6 * 4) in Hb at 1. split.
  - apply Z.div_pos; lia.
  - apply Z.lt_trans with 4; [apply Z.div_lt_upper_bound; lia | reflexivity].
Qed.

Lemma status_of_cases (v : val4) :
  status_of v = STATUS_NORMAL \/ status_of v = STATUS_RESERVED \/
  status_of v = STATUS_STALE \/ status_of v = STATUS_FAULT.
Proof.
  rewrite status_of_div. pose proof (u8_range (val0 v)) as Hb.
  assert (0 <= u8 (val0 v) / 2 ^ 6 < 4) as H.
  { change (2 ^ 8) with (2 ^ 6 * 4) in Hb. split.
    - apply Z.div_pos; lia.
    - apply Z.div_lt_upper_bound; lia. }
  unfold STATUS_NORMAL, STATUS_RESERVED, STATUS_STALE, STATUS_FAULT. lia.
Qed.

(** ** The paths through [collect] *)

Lemma collect_bus_error (io : collect_io) (d : MEASAirspeed) :
  transfer_ret io < 0 ->
  collect io d =
    (end_sample_perf (count_comms_error (begin_sample_perf d)), transfer_ret io).
Proof.
  intros H. unfold collect.
  destruct (Z.ltb_spec (transfer_ret io) 0); [reflexivity | lia].
Qed.

Lemma collect_reserved (io : collect_io) (d : MEASAirspeed) :
  0 <= transfer_ret io -> status_of (val io) = STATUS_RESERVED ->
  collect io d = (begin_sample_perf d, - EAGAIN).
Proof.
  intros H Hs. unfold collect.
  destruct (Z.ltb_spec (transfer_ret io) 0); [lia |].
  now rewrite Hs.
Qed.

Lemma collect_stale (io : collect_io) (d : MEASAirspeed) :
  0 <= transfer_ret io -> status_of (val io) = STATUS_STALE ->
  collect io d = (begin_sample_perf d, - EAGAIN).
Proof.
  intros H Hs. unfold collect.
  destruct (Z.ltb_spec (transfer_ret io) 0); [lia |].
  now rewrite Hs.
Qed.

Lemma collect_fault (io : collect_io) (d : MEASAirspeed) :
  0 <= transfer_ret io -> status_of (val io) = STATUS_FAULT ->
  collect io d =
    (end_sample_perf (count_comms_error (begin_sample_perf d)), - EAGAIN).
Proof.
  intros H Hs. unfold collect.
  destruct (Z.ltb_spec (transfer_ret io) 0); [lia |].
  now rewrite Hs.
Qed.

Lemma collect_saturated (io : collect_io) (d : MEASAirspeed) :
  0 <= transfer_ret io -> status_of (val io) = STATUS_NORMAL ->
  dT_raw_of (val io) = 2047 ->
  collect io d = (count_comms_error (begin_sample_perf d), - EAGAIN).
Proof.
  intros H Hs HT. unfold collect.
  destruct (Z.ltb_spec (transfer_ret io) 0); [lia |].
  now rewrite Hs, HT.
Qed.

Lemma collect_unchanged (io : collect_io) (d : MEASAirspeed) :
  0 <= transfer_ret io -> status_of (val io) = STATUS_NORMAL ->
  dT_raw_of (val io) <> 2047 ->
  dp_raw_of (val io) = _dp_raw_prev d \/ dT_raw_of (val io) = _dT_raw_prev d ->
  collect io d = (end_sample_perf (begin_sample_perf d), PX4_OK).
Proof.
  intros H Hs HT Heq. unfold collect.
  destruct (Z.ltb_spec (transfer_ret io) 0); [lia |].
  rewrite Hs. cbn match.
  destruct (Z.eqb_spec (dT_raw_of (val io)) 2047); [contradiction |].
  cbn [_dp_raw_prev _dT_raw_prev begin_sample_perf with_sample_perf].
  destruct (Z.eqb_spec (dp_raw_of (val io)) (_dp_raw_prev d));
    destruct (Z.eqb_spec (dT_raw_of (val io)) (_dT_raw_prev d));
    try reflexivity.
  destruct Heq; contradiction.
Qed.

Lemma collect_accepted (io : collect_io) (d : MEASAirspeed) :
  0 <= transfer_ret io -> status_of (val io) = STATUS_NORMAL ->
  dT_raw_of (val io) <> 2047 ->
  dp_raw_of (val io) <> _dp_raw_prev d -> dT_raw_of (val io) <> _dT_raw_prev d ->
  collect io d =
    (end_sample_perf
       (publish (report_of io d)
          (set_raw_prev (dp_raw_of (val io)) (dT_raw_of (val io)) (begin_sample_perf d))),
     PX4_OK).
Proof.
  intros H Hs HT Hp Ht. unfold collect.
  destruct (Z.ltb_spec (transfer_ret io) 0); [lia |].
  rewrite Hs. cbn match.
  destruct (Z.eqb_spec (dT_raw_of (val io)) 2047); [contradiction |].
  cbn [_dp_raw_prev _dT_raw_prev begin_sample_perf with_sample_perf].
  destruct (Z.eqb_spec (dp_raw_of (val io)) (_dp_raw_prev d)); [contradiction |].
  destruct (Z.eqb_spec (dT_raw_of (val io)) (_dT_raw_prev d)); [contradiction |].
  reflexivity.
Qed.

Lemma collect_takes_path (io : collect_io) (d : MEASAirspeed) :
  collect_path io d (collect io d).
Proof.
  destruct (Z.lt_ge_cases (transfer_ret io) 0) as [Hr | Hr].
  - rewrite collect_bus_error by assumption. now constructor.
  - destruct (status_of_cases (val io)) as [Hs | [Hs | [Hs | Hs]]].
    + destruct (Z.eq_dec (dT_raw_of (val io)) 2047) as [HT | HT].
      * rewrite collect_saturated by assumption. now constructor.
      * destruct (Z.eq_dec (dp_raw_of (val io)) (_dp_raw_prev d)) as [Hp | Hp].
        { rewrite collect_unchanged by auto. constructor; auto. }
        destruct (Z.eq_dec (dT_raw_of (val io)) (_dT_raw_prev d)) as [Ht | Ht].
        { rewrite collect_unchanged by auto. constructor; auto. }
        rewrite collect_accepted by assumption. now constructor.
    + rewrite collect_reserved by assumption. now constructor.
    + rewrite collect_stale by assumption. now constructor.
    + rewrite collect_fault by assumption. now constructor.
Qed.

(** ** Failing collects *)

Ltac unfold_codes :=
  unfold STATUS_NORMAL, STATUS_RESERVED, STATUS_STALE, STATUS_FAULT,
    PX4_OK, OK, EAGAIN in *.

Lemma collect_fails_iff (io : collect_io) (d : MEASAirspeed) :
  collect_fails io <-> snd (collect io d) <> PX4_OK.
Proof.
  unfold collect_fails.
  destruct (collect_takes_path io d); cbn [snd]; unfold_codes;
    split; intros; try lia; try (intros ?; lia).
Qed.

(** The status code read off the two top bits of byte 0. *)
Lemma status_of_bits (v : val4) :
  status_of v =
    match status_bits v with
    | (false, false) => STATUS_NORMAL
    | (false, true) => STATUS_RESERVED
    | (true, false) => STATUS_STALE
    | (true, true) => STATUS_FAULT
    end.
Proof.
  rewrite status_of_div. unfold status_bits. unfold_codes.
  pose proof (u8_range (val0 v)) as Hb.
  change (2 ^ 8) with 256 in Hb.
  remember (u8 (val0 v)) as x eqn:Hx. clear Hx.
  destruct (Z.testbit x 7) eqn:E7; destruct (Z.testbit x 6) eqn:E6;
    first [apply Z.testbit_true in E7; [| lia] | apply Z.testbit_false in E7; [| lia]];
    first [apply Z.testbit_true in E6; [| lia] | apply Z.testbit_false in E6; [| lia]];
    change (2 ^ 7) with 128 in E7; change (2 ^ 6) with 64 in *;
    Z.div_mod_to_equations; lia.
Qed.

(** A failing collect changes neither the cache nor the topic. *)
Lemma failing_collect_keeps_state (io : collect_io) (d : MEASAirspeed) :
  collect_fails io ->
  raw_prev (fst (collect io d)) = raw_prev d /\
  no_publish d (fst (collect io d)).
Proof.
  unfold collect_fails. intros Hf. split.
  - destruct (collect_takes_path io d); unfold_codes; try reflexivity; lia.
  - destruct (collect_takes_path io d); unfold_codes; try reflexivity; lia.
Qed.

(** C3: a collect that fails (the bus read failed, the status is not Normal
    or the temperature count is 2047) leaves the previous-sample cache as it
    was and publishes nothing; these are the collects that do not return
    [PX4_OK]. *)
Theorem collect_atomic_on_error (io : collect_io) (d : MEASAirspeed) :
  collect_fails io ->
  raw_prev (fst (collect io d)) = raw_prev d /\
  no_publish d (fst (collect io d)) /\
  snd (collect io d) <> PX4_OK.
Proof.
  intros Hf.
  destruct (failing_collect_keeps_state io d Hf) as [Hc Hp].
  split; [exact Hc | split; [exact Hp | now apply collect_fails_iff]].
Qed.

Lemma collect_atomic_on_error_witness :
  collect_fails (read_of 0 fault_val) /\
  raw_prev (fst (collect (read_of 0 fault_val) collecting_driver))
    = raw_prev collecting_driver /\
  collect_fails (read_of (-5) normal_val) /\
  no_publish collecting_driver (fst (collect (read_of (-5) normal_val) collecting_driver)).
Proof.
  assert (collect_fails (read_of 0 fault_val)) as H1.
  { right; left. vm_compute. discriminate. }
  assert (collect_fails (read_of (-5) normal_val)) as H2.
  { left. vm_compute. reflexivity. }
  split; [exact H1 | split].
  - exact (proj1 (collect_atomic_on_error (read_of 0 fault_val) collecting_driver H1)).
  - split; [exact H2 |].
    exact (proj1 (proj2
      (collect_atomic_on_error (read_of (-5) normal_val) collecting_driver H2))).
Defined.

(** C9: a response whose status bits are 01 (Reserved) makes [collect]
    return [-EAGAIN] without counting an error, without touching the cache and
    without publishing: what it does for a Stale response. *)
Theorem collect_reserved_as_stale (io io' : collect_io) (d : MEASAirspeed) :
  0 <= transfer_ret io ->
  status_bits (val io) = (false, true) ->
  0 <= transfer_ret io' ->
  status_bits (val io') = (true, false) ->
  status_of (val io) = STATUS_RESERVED /\
  snd (collect io d) = - EAGAIN /\
  snd (collect io d) <> PX4_OK /\
  _comms_errors (fst (collect io d)) = _comms_errors d /\
  raw_prev (fst (collect io d)) = raw_prev d /\
  no_publish d (fst (collect io d)) /\
  collect io d = collect io' d.
Proof.
  intros Hr Hb Hr' Hb'.
  assert (status_of (val io) = STATUS_RESERVED) as Hs
    by (rewrite status_of_bits, Hb; reflexivity).
  assert (status_of (val io') = STATUS_STALE) as Hs'
    by (rewrite status_of_bits, Hb'; reflexivity).
  rewrite (collect_reserved io d Hr Hs), (collect_stale io' d Hr' Hs').
  repeat split; try reflexivity; try assumption.
  cbn. unfold_codes. lia.
Qed.

Lemma collect_reserved_as_stale_witness :
  0 <= transfer_ret (read_of 0 reserved_val) /\
  status_bits (val (read_of 0 reserved_val)) = (false, true) /\
  0 <= transfer_ret (read_of 0 stale_val) /\
  status_bits (val (read_of 0 stale_val)) = (true, false) /\
  snd (collect (read_of 0 reserved_val) collecting_driver) = - EAGAIN /\
  _comms_errors (fst (collect (read_of 0 reserved_val) collecting_driver))
    = _comms_errors collecting_driver.
Proof.
  assert (0 <= transfer_ret (read_of 0 reserved_val)) as H1
    by (vm_compute; discriminate).
  assert (0 <= transfer_ret (read_of 0 stale_val)) as H2
    by (vm_compute; discriminate).
  pose proof (collect_reserved_as_stale (read_of 0 reserved_val) (read_of 0 stale_val)
                collecting_driver H1 eq_refl H2 eq_refl) as H.
  split; [exact H1 | split; [reflexivity | split; [exact H2 | split; [reflexivity |]]]].
  split; [exact (proj1 (proj2 H)) | exact (proj1 (proj2 (proj2 (proj2 H))))].
Defined.

(** ** Error accounting *)

Lemma measure_comms_errors_mono (ret : Z) (d : MEASAirspeed) :
  _comms_errors d <= _comms_errors (fst (measure ret d)).
Proof.
  unfold measure. destruct (negb (OK =? ret)); cbn; unfold Perf.perf_count; lia.
Qed.

Lemma collect_comms_errors_mono (io : collect_io) (d : MEASAirspeed) :
  _comms_errors d <= _comms_errors (fst (collect io d)).
Proof.
  destruct (collect_takes_path io d); cbn; unfold Perf.perf_count; lia.
Qed.

Lemma RunImpl_comms_errors_mono (io : run_io) (d : MEASAirspeed) :
  _comms_errors d <= _comms_errors (fst (RunImpl io d)).
Proof.
  assert (forall r d0, _comms_errors d0 <= _comms_errors (fst (measurement_phase r d0))) as Hm.
  { intros r d0. unfold measurement_phase.
    pose proof (measure_comms_errors_mono r d0) as H.
    destruct (measure r d0) as [d1 ret]. exact H. }
  unfold RunImpl. destruct (_collect_phase d); [| apply Hm].
  pose proof (collect_comms_errors_mono (io_collect io) d) as Hc.
  destruct (collect (io_collect io) d) as [d1 ret]. cbn [fst] in Hc.
  destruct (negb (OK =? ret)); [exact Hc |].
  cbn [_measure_interval set_collect_phase].
  destruct (_measure_interval d1 >? CONVERSION_INTERVAL); [exact Hc |].
  etransitivity; [exact Hc | apply (Hm _ (set_collect_phase false d1))].
Qed.

Lemma run_comms_errors_mono (ios : list run_io) (d : MEASAirspeed) :
  _comms_errors d <= _comms_errors (run ios d).
Proof.
  revert d. induction ios as [| io ios IH]; intros d; cbn.
  - lia.
  - etransitivity; [apply (RunImpl_comms_errors_mono io d) | apply IH].
Qed.

(** C7: [collect] adds one to the error counter exactly when the bus read
    failed, the status is Fault (bits 11) or the temperature count of a Normal
    response is 2047, and leaves it alone otherwise; a Stale response (bits
    10) aborts with [-EAGAIN] and no count; the counter never decreases, over
    a collect, a step or a run of steps; a report that is published carries
    the value the counter has then. *)
Theorem comms_errors_accounting (io : collect_io) (d : MEASAirspeed) :
  (counted_failure io <->
     _comms_errors (fst (collect io d)) = _comms_errors d + 1) /\
  (~ counted_failure io <->
     _comms_errors (fst (collect io d)) = _comms_errors d) /\
  (0 <= transfer_ret io -> status_bits (val io) = (true, true) ->
     snd (collect io d) = - EAGAIN /\
     _comms_errors (fst (collect io d)) = _comms_errors d + 1) /\
  (0 <= transfer_ret io -> status_bits (val io) = (true, false) ->
     snd (collect io d) = - EAGAIN /\
     _comms_errors (fst (collect io d)) = _comms_errors d) /\
  _comms_errors d <= _comms_errors (fst (collect io d)) /\
  (forall ios rio, _comms_errors d <= _comms_errors (run ios d) /\
                   _comms_errors d <= _comms_errors (fst (RunImpl rio d))) /\
  (forall r, published r d (fst (collect io d)) ->
     error_count r = Perf.perf_event_count (_comms_errors (fst (collect io d)))).
Proof.
  split; [| split; [| split; [| split; [| split; [| split]]]]].
  - unfold counted_failure.
    destruct (collect_takes_path io d); cbn; unfold Perf.perf_count; unfold_codes;
      split; intros; lia.
  - unfold counted_failure.
    destruct (collect_takes_path io d); cbn; unfold Perf.perf_count; unfold_codes;
      split; intros; lia.
  - intros Hr Hb.
    assert (status_of (val io) = STATUS_FAULT) as Hs
      by (rewrite status_of_bits, Hb; reflexivity).
    now rewrite (collect_fault io d Hr Hs).
  - intros Hr Hb.
    assert (status_of (val io) = STATUS_STALE) as Hs
      by (rewrite status_of_bits, Hb; reflexivity).
    now rewrite (collect_stale io d Hr Hs).
  - apply collect_comms_errors_mono.
  - intros ios rio. split;
      [apply run_comms_errors_mono | apply RunImpl_comms_errors_mono].
  - unfold published.
    destruct (collect_takes_path io d); cbn; intros r Hp;
      try (exfalso; revert Hp; clear; generalize (_differential_pressure_pub d);
           intros l Hl; apply (f_equal (@List.length _)) in Hl; cbn in Hl; lia).
    injection Hp as <-. reflexivity.
Qed.

Lemma comms_errors_accounting_witness :
  counted_failure (read_of 0 saturated_val) /\
  _comms_errors (fst (collect (read_of 0 saturated_val) collecting_driver))
    = _comms_errors collecting_driver + 1 /\
  status_bits (val (read_of 0 fault_val)) = (true, true) /\
  _comms_errors (fst (collect (read_of 0 fault_val) collecting_driver))
    = _comms_errors collecting_driver + 1 /\
  status_bits (val (read_of 0 stale_val)) = (true, false) /\
  _comms_errors (fst (collect (read_of 0 stale_val) collecting_driver))
    = _comms_errors collecting_driver /\
  published (report_of (read_of 0 normal_val) collecting_driver) collecting_driver
    (fst (collect (read_of 0 normal_val) collecting_driver)) /\
  error_count (report_of (read_of 0 normal_val) collecting_driver)
    = _comms_errors (fst (collect (read_of 0 normal_val) collecting_driver)).
Proof.
  assert (counted_failure (read_of 0 saturated_val)) as Hc.
  { right; right. split; [vm_compute; discriminate | split; reflexivity]. }
  assert (0 <= 0) as H0 by lia.
  split; [exact Hc | split].
  { exact (proj1 (proj1 (comms_errors_accounting (read_of 0 saturated_val)
                           collecting_driver)) Hc). }
  split; [reflexivity | split].
  { destruct (comms_errors_accounting (read_of 0 fault_val) collecting_driver)
      as (_ & _ & H & _).
    exact (proj2 (H H0 eq_refl)). }
  split; [reflexivity | split].
  { destruct (comms_errors_accounting (read_of 0 stale_val) collecting_driver)
      as (_ & _ & _ & H & _).
    exact (proj2 (H H0 eq_refl)). }
  split; [reflexivity |].
  destruct (comms_errors_accounting (read_of 0 normal_val) collecting_driver)
    as (_ & _ & _ & _ & _ & _ & H).
  exact (H _ eq_refl).
Defined.

(** ** Change suppression *)

Lemma cons_neq_self {A : Type} (x : A) (l : list A) : x :: l <> l.
Proof.
  intros H. apply (f_equal (@List.length A)) in H. cbn in H. lia.
Qed.

(** A collect publishes one report or none. *)
Lemma collect_publishes_at_most_one (io : collect_io) (d : MEASAirspeed) :
  no_publish d (fst (collect io d)) \/
  published (report_of io d) d (fst (collect io d)).
Proof.
  unfold no_publish, published.
  destruct (collect_takes_path io d); cbn; auto.
Qed.

(** C1: [collect] publishes a report only when the decoded pressure count
    differs from the cached one and the decoded temperature count differs from
    the cached one; the cache changes exactly when a report is published, and
    then holds the decoded counts; a second collect on the bytes of a read
    that went through publishes nothing. *)
Theorem publish_only_on_double_change (io io2 : collect_io) (d : MEASAirspeed) :
  let d1 := fst (collect io d) in
  ((exists r, published r d d1) ->
     dp_raw_of (val io) <> _dp_raw_prev d /\ dT_raw_of (val io) <> _dT_raw_prev d) /\
  (dp_raw_of (val io) = _dp_raw_prev d \/ dT_raw_of (val io) = _dT_raw_prev d ->
     no_publish d d1) /\
  ((exists r, published r d d1) <-> raw_prev d1 <> raw_prev d) /\
  ((exists r, published r d d1) ->
     raw_prev d1 = (dp_raw_of (val io), dT_raw_of (val io))) /\
  (no_publish d d1 <-> raw_prev d1 = raw_prev d) /\
  (0 <= transfer_ret io -> val io2 = val io ->
     no_publish d1 (fst (collect io2 d1))).
Proof.
  cbv zeta.
  assert (forall r, published r d (fst (collect io d)) ->
            0 <= transfer_ret io /\ status_of (val io) = STATUS_NORMAL /\
            dT_raw_of (val io) <> 2047 /\
            dp_raw_of (val io) <> _dp_raw_prev d /\
            dT_raw_of (val io) <> _dT_raw_prev d /\
            raw_prev (fst (collect io d)) = (dp_raw_of (val io), dT_raw_of (val io)))
    as Hpub.
  { intros r. unfold published.
    destruct (collect_takes_path io d); cbn; intros Hp;
      try (now symmetry in Hp; apply cons_neq_self in Hp).
    repeat split; assumption. }
  assert (no_publish d (fst (collect io d)) -> raw_prev (fst (collect io d)) = raw_prev d)
    as Hnop.
  { unfold no_publish.
    destruct (collect_takes_path io d); cbn; intros Hp; try reflexivity.
    now apply cons_neq_self in Hp. }
  split; [| split; [| split; [| split; [| split]]]].
  - intros [r Hr]. destruct (Hpub r Hr) as (_ & _ & _ & Hp & Ht & _). now split.
  - intros Heq.
    destruct (collect_publishes_at_most_one io d) as [Hn | Hr]; [exact Hn |].
    destruct (Hpub _ Hr) as (_ & _ & _ & Hp & Ht & _). destruct Heq; contradiction.
  - split.
    + intros [r Hr]. destruct (Hpub r Hr) as (_ & _ & _ & Hp & Ht & Hc).
      rewrite Hc. unfold raw_prev. intros E. injection E as E1 E2. contradiction.
    + intros Hne.
      destruct (collect_publishes_at_most_one io d) as [Hn | Hr].
      * elim Hne. now apply Hnop.
      * eexists; exact Hr.
  - intros [r Hr]. now destruct (Hpub r Hr) as (_ & _ & _ & _ & _ & Hc).
  - split; [exact Hnop |].
    intros Hc.
    destruct (collect_publishes_at_most_one io d) as [Hn | Hr]; [exact Hn |].
    destruct (Hpub _ Hr) as (_ & _ & _ & Hp & _ & Hc'). rewrite Hc in Hc'.
    unfold raw_prev in Hc'. injection Hc' as E1 E2. symmetry in E1. contradiction.
  - intros Hret Hval.
    destruct (collect_publishes_at_most_one io2 (fst (collect io d))) as [Hn | Hr];
      [exact Hn | exfalso].
    assert (forall r, published r (fst (collect io d)) (fst (collect io2 (fst (collect io d)))) ->
              status_of (val io) = STATUS_NORMAL /\ dT_raw_of (val io) <> 2047 /\
              dp_raw_of (val io) <> _dp_raw_prev (fst (collect io d)) /\
              dT_raw_of (val io) <> _dT_raw_prev (fst (collect io d))) as Hpub2.
    { intros r. unfold published. rewrite <- Hval.
      destruct (collect_takes_path io2 (fst (collect io d))); cbn; intros Hp;
        try (now symmetry in Hp; apply cons_neq_self in Hp).
      repeat split; assumption. }
    destruct (Hpub2 _ Hr) as (Hs & HT & Hp2 & Ht2).
    revert Hp2 Ht2.
    destruct (collect_takes_path io d); cbn; unfold_codes; intros; lia.
Qed.

Lemma publish_only_on_double_change_witness :
  (exists r, published r collecting_driver
               (fst (collect (read_of 0 normal_val) collecting_driver))) /\
  dp_raw_of normal_val <> _dp_raw_prev collecting_driver /\
  dT_raw_of normal_val <> _dT_raw_prev collecting_driver /\
  no_publish (fst (collect (read_of 0 normal_val) collecting_driver))
    (fst (collect (read_of 0 normal_val)
            (fst (collect (read_of 0 normal_val) collecting_driver)))).
Proof.
  pose proof (publish_only_on_double_change
                (read_of 0 normal_val) (read_of 0 normal_val) collecting_driver) as H.
  cbv zeta in H. destruct H as (H1 & _ & _ & _ & _ & H6).
  assert (exists r, published r collecting_driver
                      (fst (collect (read_of 0 normal_val) collecting_driver))) as Hp.
  { eexists. reflexivity. }
  split; [exact Hp |].
  split; [exact (proj1 (H1 Hp)) |].
  split; [exact (proj2 (H1 Hp)) |].
  apply H6; [vm_compute; discriminate | reflexivity].
Defined.

(** ** The paths through [RunImpl] *)

Lemma collect_measure_interval (io : collect_io) (d : MEASAirspeed) :
  _measure_interval (fst (collect io d)) = _measure_interval d.
Proof.
  destruct (collect_takes_path io d); reflexivity.
Qed.

Lemma RunImpl_measure (io : run_io) (d : MEASAirspeed) :
  _collect_phase d = false ->
  RunImpl io d = measurement_phase (io_measure_ret io) d.
Proof.
  intros H. unfold RunImpl. now rewrite H.
Qed.

Lemma measurement_phase_eq (ret : Z) (d : MEASAirspeed) :
  measurement_phase ret d =
    (set_collect_phase true (set_sensor_ok (ret =? OK) (fst (measure ret d))),
     ScheduleDelayed CONVERSION_INTERVAL).
Proof.
  reflexivity.
Qed.

Lemma RunImpl_collect_failed (io : run_io) (d : MEASAirspeed) :
  _collect_phase d = true ->
  snd (collect (io_collect io) d) <> PX4_OK ->
  RunImpl io d =
    (set_sensor_ok false (set_collect_phase false (fst (collect (io_collect io) d))),
     ScheduleNow).
Proof.
  intros H Hret. unfold RunImpl. rewrite H.
  destruct (collect (io_collect io) d) as [d1 ret]. cbn [fst snd] in *.
  unfold OK, PX4_OK in *.
  destruct (Z.eqb_spec 0 ret); [congruence | reflexivity].
Qed.

Lemma RunImpl_collect_gap (io : run_io) (d : MEASAirspeed) :
  _collect_phase d = true ->
  snd (collect (io_collect io) d) = PX4_OK ->
  _measure_interval d > CONVERSION_INTERVAL ->
  RunImpl io d =
    (set_collect_phase false (fst (collect (io_collect io) d)),
     ScheduleDelayed (to_int (_measure_interval d - CONVERSION_INTERVAL))).
Proof.
  intros H Hret Hgap. unfold RunImpl. rewrite H.
  pose proof (collect_measure_interval (io_collect io) d) as Hm.
  destruct (collect (io_collect io) d) as [d1 ret]. cbn [fst snd] in *.
  unfold OK, PX4_OK in *. subst ret. cbn [Z.eqb negb].
  cbn [_measure_interval set_collect_phase]. rewrite Hm.
  destruct (Z.gtb_spec (_measure_interval d) CONVERSION_INTERVAL); [reflexivity | lia].
Qed.

Lemma RunImpl_collect_no_gap (io : run_io) (d : MEASAirspeed) :
  _collect_phase d = true ->
  snd (collect (io_collect io) d) = PX4_OK ->
  _measure_interval d <= CONVERSION_INTERVAL ->
  RunImpl io d =
    measurement_phase (io_measure_ret io)
      (set_collect_phase false (fst (collect (io_collect io) d))).
Proof.
  intros H Hret Hgap. unfold RunImpl. rewrite H.
  pose proof (collect_measure_interval (io_collect io) d) as Hm.
  destruct (collect (io_collect io) d) as [d1 ret]. cbn [fst snd] in *.
  unfold OK, PX4_OK in *. subst ret. cbn [Z.eqb negb].
  cbn [_measure_interval set_collect_phase]. rewrite Hm.
  destruct (Z.gtb_spec (_measure_interval d) CONVERSION_INTERVAL); [lia | reflexivity].
Qed.

Lemma protocol_fault_fails (io : collect_io) : protocol_fault io -> collect_fails io.
Proof.
  unfold protocol_fault, collect_fails. unfold_codes. intros [_ [H | [H | H]]]; lia.
Qed.

Lemma transport_fault_fails (io : collect_io) : transport_fault io -> collect_fails io.
Proof.
  unfold transport_fault, collect_fails. auto.
Qed.

(** Any failing collect makes the step restart the state machine, and the
    cache and the topic are as before the step. *)
Lemma failed_collect_restarts (io : run_io) (d : MEASAirspeed) :
  _collect_phase d = true -> collect_fails (io_collect io) ->
  raw_prev (fst (RunImpl io d)) = raw_prev d /\
  no_publish d (fst (RunImpl io d)) /\
  hard_reset (RunImpl io d).
Proof.
  intros Hph Hf.
  destruct (failing_collect_keeps_state (io_collect io) d Hf) as (Hc & Hp).
  assert (snd (collect (io_collect io) d) <> PX4_OK) as Hr
    by now apply collect_fails_iff.
  rewrite (RunImpl_collect_failed io d Hph Hr).
  repeat split; assumption.
Qed.

(** ** Faults and the state machine *)

(** C2, as the specification states it, fails: a Fault response in the
    COLLECT phase makes the step restart the state machine, the very thing it
    does for a failed bus read. *)
Lemma protocol_fault_hard_reset_example :
  _collect_phase collecting_driver = true /\
  _sensor_ok collecting_driver = true /\
  protocol_fault (io_collect (step_of 0 fault_val 0)) /\
  hard_reset (RunImpl (step_of 0 fault_val 0) collecting_driver) /\
  transport_fault (io_collect (step_of (-5) normal_val 0)) /\
  snd (RunImpl (step_of 0 fault_val 0) collecting_driver)
    = snd (RunImpl (step_of (-5) normal_val 0) collecting_driver).
Proof.
  split; [reflexivity | split; [reflexivity | split; [| split; [| split]]]].
  - split; [vm_compute; discriminate | left; reflexivity].
  - repeat split; reflexivity.
  - reflexivity.
  - reflexivity.
Qed.

(** C2, amended: in the COLLECT phase a protocol fault (status Fault or
    Stale, or a temperature count of 2047) aborts the cycle without touching
    the cache and without publishing, and the step restarts the state machine
    as it does for a transport fault: the phase is MEASURE, [_sensor_ok] is
    false and the next step is scheduled at once. *)
Theorem protocol_fault_restarts (io io' : run_io) (d : MEASAirspeed) :
  _collect_phase d = true ->
  protocol_fault (io_collect io) ->
  transport_fault (io_collect io') ->
  raw_prev (fst (RunImpl io d)) = raw_prev d /\
  no_publish d (fst (RunImpl io d)) /\
  hard_reset (RunImpl io d) /\
  hard_reset (RunImpl io' d) /\
  snd (RunImpl io d) = snd (RunImpl io' d).
Proof.
  intros Hph Hp Ht.
  destruct (failed_collect_restarts io d Hph (protocol_fault_fails _ Hp))
    as (Hc & Hn & Hr).
  destruct (failed_collect_restarts io' d Hph (transport_fault_fails _ Ht))
    as (_ & _ & Hr').
  repeat split; try assumption; try apply Hr; try apply Hr'.
  destruct Hr as (_ & _ & ->). now destruct Hr' as (_ & _ & ->).
Qed.

Lemma protocol_fault_restarts_witness :
  _collect_phase collecting_driver = true /\
  protocol_fault (io_collect (step_of 0 stale_val 0)) /\
  transport_fault (io_collect (step_of (-5) normal_val 0)) /\
  hard_reset (RunImpl (step_of 0 stale_val 0) collecting_driver).
Proof.
  assert (protocol_fault (io_collect (step_of 0 stale_val 0))) as Hp.
  { split; [vm_compute; discriminate | right; left; reflexivity]. }
  assert (transport_fault (io_collect (step_of (-5) normal_val 0))) as Ht.
  { reflexivity. }
  split; [reflexivity | split; [exact Hp | split; [exact Ht |]]].
  exact (proj1 (proj2 (proj2
    (protocol_fault_restarts (step_of 0 stale_val 0) (step_of (-5) normal_val 0)
       collecting_driver eq_refl Hp Ht)))).
Defined.

(** ** Scheduling *)

(** C6: a MEASURE step schedules the next step after the conversion
    interval, 10000 microseconds, so the COLLECT that follows is due that much
    later; a successful COLLECT with a poll interval above the conversion
    interval schedules the next step after their difference; a failed COLLECT
    schedules the next step with no delay and the phase is MEASURE. *)
Theorem step_scheduling (io : run_io) (d : MEASAirspeed) (now : Z) :
  CONVERSION_INTERVAL = 10000 /\
  (_collect_phase d = false ->
     snd (RunImpl io d) = ScheduleDelayed CONVERSION_INTERVAL /\
     _collect_phase (fst (RunImpl io d)) = true /\
     wq_due (wq_step io {| wq_due := now; wq_driver := d |})
       = now + CONVERSION_INTERVAL /\
     _collect_phase (wq_driver (wq_step io {| wq_due := now; wq_driver := d |}))
       = true) /\
  (_collect_phase d = true ->
     snd (collect (io_collect io) d) = PX4_OK ->
     is_int (_measure_interval d) ->
     _measure_interval d > CONVERSION_INTERVAL ->
     snd (RunImpl io d)
       = ScheduleDelayed (_measure_interval d - CONVERSION_INTERVAL) /\
     _collect_phase (fst (RunImpl io d)) = false) /\
  (_collect_phase d = true ->
     snd (collect (io_collect io) d) <> PX4_OK ->
     snd (RunImpl io d) = ScheduleNow /\
     delay_of (snd (RunImpl io d)) = 0 /\
     _collect_phase (fst (RunImpl io d)) = false).
Proof.
  split; [reflexivity | split; [| split]].
  - intros Hph. unfold wq_step. cbn [wq_driver wq_due].
    rewrite (RunImpl_measure io d Hph), measurement_phase_eq.
    cbn [fst snd delay_of wq_due wq_driver]. repeat split; reflexivity.
  - intros Hph Hok Hint Hgap.
    rewrite (RunImpl_collect_gap io d Hph Hok Hgap). cbn [fst snd]. split.
    + f_equal. apply to_int_small.
      unfold is_int, INT_MIN, INT_MAX in *.
      change CONVERSION_INTERVAL with 10000 in *. lia.
    + reflexivity.
  - intros Hph Hf.
    rewrite (RunImpl_collect_failed io d Hph Hf). repeat split; reflexivity.
Qed.

Lemma step_scheduling_witness :
  (_collect_phase (MEASAirspeed_new 1) = false /\
   snd (RunImpl (step_of 0 normal_val 0) (MEASAirspeed_new 1))
     = ScheduleDelayed CONVERSION_INTERVAL) /\
  (_collect_phase slow_collecting_driver = true /\
   snd (collect (io_collect (step_of 0 normal_val 0)) slow_collecting_driver) = PX4_OK /\
   is_int (_measure_interval slow_collecting_driver) /\
   _measure_interval slow_collecting_driver > CONVERSION_INTERVAL /\
   snd (RunImpl (step_of 0 normal_val 0) slow_collecting_driver)
     = ScheduleDelayed (50000 - CONVERSION_INTERVAL)) /\
  (snd (collect (io_collect (step_of 0 saturated_val 0)) slow_collecting_driver)
     <> PX4_OK /\
   snd (RunImpl (step_of 0 saturated_val 0) slow_collecting_driver) = ScheduleNow).
Proof.
  assert (is_int (_measure_interval slow_collecting_driver)) as Hint.
  { unfold is_int, INT_MIN, INT_MAX. cbn. lia. }
  assert (_measure_interval slow_collecting_driver > CONVERSION_INTERVAL) as Hgap
    by reflexivity.
  assert (snd (collect (io_collect (step_of 0 saturated_val 0)) slow_collecting_driver)
          <> PX4_OK) as Hfail by (vm_compute; discriminate).
  split; [| split].
  - split; [reflexivity |].
    apply (proj1 (proj2 (step_scheduling (step_of 0 normal_val 0) (MEASAirspeed_new 1) 0))).
    reflexivity.
  - split; [reflexivity | split; [reflexivity | split; [exact Hint | split; [exact Hgap |]]]].
    exact (proj1 (proj1 (proj2 (proj2
      (step_scheduling (step_of 0 normal_val 0) slow_collecting_driver 0)))
      eq_refl eq_refl Hint Hgap)).
  - split; [exact Hfail |].
    exact (proj1 (proj2 (proj2 (proj2
      (step_scheduling (step_of 0 saturated_val 0) slow_collecting_driver 0)))
      eq_refl Hfail)).
Defined.

(** What the measurement phase of a step does, wherever it starts from. *)
Lemma measurement_phase_facts (ret : Z) (d : MEASAirspeed) :
  _collect_phase (fst (measurement_phase ret d)) = true /\
  snd (measurement_phase ret d) = ScheduleDelayed CONVERSION_INTERVAL /\
  (_sensor_ok (fst (measurement_phase ret d)) = true <-> ret = OK) /\
  (ret = OK -> _comms_errors (fst (measurement_phase ret d)) = _comms_errors d) /\
  (ret <> OK -> _comms_errors (fst (measurement_phase ret d)) = _comms_errors d + 1) /\
  raw_prev (fst (measurement_phase ret d)) = raw_prev d /\
  no_publish d (fst (measurement_phase ret d)).
Proof.
  rewrite measurement_phase_eq.
  cbn [fst snd _collect_phase _sensor_ok set_collect_phase set_sensor_ok].
  unfold measure, OK.
  split; [reflexivity | split; [reflexivity | split; [| split; [| split]]]].
  - destruct (Z.eqb_spec ret 0); split; intros; congruence.
  - intros ->. reflexivity.
  - intros Hne. destruct (Z.eqb_spec 0 ret); [congruence |].
    reflexivity.
  - destruct (negb (0 =? ret)); split; reflexivity.
Qed.

(** C8: a MEASURE step, whether the command write succeeds or fails, moves
    to the COLLECT phase and schedules the next step after the conversion
    interval; [_sensor_ok] is true exactly when the write succeeded (a failed
    write is counted as a comms error).  The same holds when the measurement
    follows a successful collect in the same call. *)
Theorem measure_step (io : run_io) (d : MEASAirspeed) :
  (_collect_phase d = false ->
     _collect_phase (fst (RunImpl io d)) = true /\
     snd (RunImpl io d) = ScheduleDelayed CONVERSION_INTERVAL /\
     (_sensor_ok (fst (RunImpl io d)) = true <-> io_measure_ret io = OK) /\
     (io_measure_ret io = OK ->
        _comms_errors (fst (RunImpl io d)) = _comms_errors d) /\
     (io_measure_ret io <> OK ->
        _comms_errors (fst (RunImpl io d)) = _comms_errors d + 1) /\
     raw_prev (fst (RunImpl io d)) = raw_prev d /\
     no_publish d (fst (RunImpl io d))) /\
  (_collect_phase d = true ->
     snd (collect (io_collect io) d) = PX4_OK ->
     _measure_interval d <= CONVERSION_INTERVAL ->
     _collect_phase (fst (RunImpl io d)) = true /\
     snd (RunImpl io d) = ScheduleDelayed CONVERSION_INTERVAL /\
     (_sensor_ok (fst (RunImpl io d)) = true <-> io_measure_ret io = OK)).
Proof.
  split.
  - intros Hph. rewrite (RunImpl_measure io d Hph).
    apply measurement_phase_facts.
  - intros Hph Hok Hgap. rewrite (RunImpl_collect_no_gap io d Hph Hok Hgap).
    destruct (measurement_phase_facts (io_measure_ret io)
                (set_collect_phase false (fst (collect (io_collect io) d))))
      as (H1 & H2 & H3 & _).
    split; [exact H1 | split; [exact H2 | exact H3]].
Qed.

Lemma measure_step_witness :
  _collect_phase (MEASAirspeed_new 1) = false /\
  _collect_phase (fst (RunImpl (step_of 0 normal_val (-5)) (MEASAirspeed_new 1))) = true /\
  snd (RunImpl (step_of 0 normal_val (-5)) (MEASAirspeed_new 1))
    = ScheduleDelayed CONVERSION_INTERVAL /\
  _collect_phase collecting_driver = true /\
  snd (collect (io_collect (step_of 0 normal_val 0)) collecting_driver) = PX4_OK /\
  _measure_interval collecting_driver <= CONVERSION_INTERVAL /\
  _sensor_ok (fst (RunImpl (step_of 0 normal_val 0) collecting_driver)) = true.
Proof.
  split; [reflexivity |].
  pose proof (proj1 (measure_step (step_of 0 normal_val (-5)) (MEASAirspeed_new 1))
                eq_refl) as H.
  split; [exact (proj1 H) | split; [exact (proj1 (proj2 H)) |]].
  assert (_measure_interval collecting_driver <= CONVERSION_INTERVAL) as Hgap
    by (vm_compute; discriminate).
  split; [reflexivity | split; [reflexivity | split; [exact Hgap |]]].
  pose proof (proj2 (measure_step (step_of 0 normal_val 0) collecting_driver)
                eq_refl eq_refl Hgap) as H'.
  apply (proj2 (proj2 H')). reflexivity.
Defined.

(** ** Decoding *)

(** C4: the pressure count [collect] decodes is the 14 low bits of the
    big-endian word of bytes 0 and 1 (the word masked with [0x3FFF]); the
    temperature count is the big-endian word of bytes 2 and 3 masked with
    [0xFFE0] and shifted right by 5, a value of 11 bits; both depend on the
    bytes alone, so decoding the same bytes again gives the same counts. *)
Theorem decode_counts (v v' : val4) :
  dp_raw_of v = Spec.pressure_count v /\
  dp_raw_of v = Z.land (Spec.word16_be (val0 v) (val1 v)) 0x3FFF /\
  0 <= dp_raw_of v < 2 ^ 14 /\
  dT_raw_of v = Spec.temperature_count v /\
  dT_raw_of v = Spec.word16_be (val2 v) (val3 v) / 2 ^ 5 /\
  0 <= dT_raw_of v < 2 ^ 11 /\
  (v' = v -> dp_raw_of v' = dp_raw_of v /\ dT_raw_of v' = dT_raw_of v).
Proof.
  split; [apply dp_raw_of_spec |].
  split; [rewrite dp_raw_of_spec, Z.land_comm; symmetry; apply land_3FFF |].
  split; [apply dp_raw_of_range |].
  split; [apply dT_raw_of_spec |].
  split; [apply dT_raw_of_div |].
  split; [apply dT_raw_of_range |].
  intros ->. split; reflexivity.
Qed.

Lemma decode_counts_witness :
  dp_raw_of normal_val = 8192 /\ dT_raw_of normal_val = 800 /\
  dp_raw_of (val (read_of 0 normal_val)) = dp_raw_of normal_val.
Proof.
  split; [reflexivity | split; [reflexivity |]].
  destruct (decode_counts normal_val (val (read_of 0 normal_val)))
    as (_ & _ & _ & _ & _ & _ & H).
  exact (proj1 (H eq_refl)).
Defined.

(** ** Device type and bus address *)

Lemma getopt_loop_last_T (atoi : string -> Z) (opts : list (ascii * string))
      (arg : string) (device_type : Z) :
  getopt_loop atoi (opts ++ [("T"%char, arg)]) device_type = atoi arg.
Proof.
  unfold getopt_loop. rewrite fold_left_app. reflexivity.
Qed.

(** C10: the device type is not validated.  When [-T arg] is the last
    option, [main] stores address [0x46] for every value of [atoi arg] other
    than 4525, among them 4515 and the 0 of a string [atoi] cannot parse, and
    [0x28] for 4525 only. *)
Theorem device_type_selects_address (atoi : string -> Z)
        (opts : list (ascii * string)) (arg verb : string) :
  let r := ms4525_airspeed_main atoi (opts ++ [("T"%char, arg)]) (Some verb) in
  (atoi arg <> 4525 -> cli_i2c_address r = Some 0x46) /\
  (atoi arg = 4515 -> cli_i2c_address r = Some 0x46) /\
  (atoi arg = 0 -> cli_i2c_address r = Some 0x46) /\
  (cli_i2c_address r = Some 0x28 <-> atoi arg = 4525).
Proof.
  cbv zeta. unfold ms4525_airspeed_main. rewrite getopt_loop_last_T.
  cbn [cli_i2c_address].
  unfold DEVICE_TYPE_MS4525, I2C_ADDRESS_MS4525DO, I2C_ADDRESS_MS4515DO.
  destruct (Z.eqb_spec (atoi arg) 4525) as [E | E].
  - repeat split; intros; try reflexivity; try lia.
  - repeat split; intros; try reflexivity; try lia. discriminate.
Qed.

Lemma device_type_selects_address_witness :
  CLib.atoi "4515" = 4515 /\
  CLib.atoi "4525x" = 4525 /\
  CLib.atoi "ms4525" = 0 /\
  cli_i2c_address (ms4525_airspeed_main CLib.atoi [("T"%char, "4515"%string)] (Some "start"%string))
    = Some 0x46 /\
  cli_i2c_address (ms4525_airspeed_main CLib.atoi [("T"%char, "ms4525"%string)] (Some "start"%string))
    = Some 0x46 /\
  cli_i2c_address (ms4525_airspeed_main CLib.atoi [("T"%char, "4525x"%string)] (Some "start"%string))
    = Some 0x28.
Proof.
  split; [reflexivity | split; [reflexivity | split; [reflexivity |]]].
  split; [| split].
  - apply (proj1 (proj2 (device_type_selects_address CLib.atoi [] "4515" "start"))).
    reflexivity.
  - apply (proj1 (proj2 (proj2
             (device_type_selects_address CLib.atoi [] "ms4525" "start")))).
    reflexivity.
  - apply (proj2 (proj2 (proj2
             (device_type_selects_address CLib.atoi [] "4525x" "start")))).
    reflexivity.
Defined.

(** ** Physical conversion *)

(** The constants of the conversion as binary32 numbers: [0.1f] is
    [0x3DCCCCCD], [0.8f] is [0x3F4CCCCD] and [6894.757f] is [0x45D7760E]. *)
Lemma conversion_literals :
  F32.lit 1 10 = S754_finite false 13421773 (-27) /\
  F32.lit 8 10 = S754_finite false 13421773 (-24) /\
  PSI_to_Pa = S754_finite false 14120462 (-11) /\
  F32.lit 200 1 = F32.of_int 200 /\
  P_max = F32.of_int 1 /\
  P_min = F32.of_int (-1) /\
  F32.sub P_max P_min = F32.of_int 2.
Proof.
  repeat split; vm_compute; reflexivity.
Qed.

Lemma zrange_In (n : nat) : forall lo z,
  lo <= z < lo + Z.of_nat n -> In z (zrange lo n).
Proof.
  induction n as [| n IH]; intros lo z Hz.
  - cbn in Hz. lia.
  - cbn [zrange]. destruct (Z.eq_dec z lo) as [-> | Hne].
    + now left.
    + right. apply IH. lia.
Qed.

Lemma close_to_sound (x : F32.t) (q tol : Q) :
  close_to x q tol = true ->
  F32.is_finite x = true /\ (Qabs (F32.to_Q x - q) <= tol)%Q.
Proof.
  unfold close_to. intros H. apply andb_prop in H. destruct H as [Hf Hq].
  split; [exact Hf | now apply Qle_bool_iff].
Qed.

(** Every temperature count [collect] accepts, checked one by one. *)
Lemma temperature_check_all :
  forallb temperature_check (zrange 0 (Z.to_nat 2047)) = true.
Proof.
  vm_compute. reflexivity.
Qed.

(** Every pressure count, checked one by one. *)
Lemma pressure_check_all :
  forallb pressure_check (zrange 0 (Z.to_nat 16384)) = true.
Proof.
  vm_compute. reflexivity.
Qed.

Lemma temperature_of_close (dT : Z) :
  0 <= dT < 2047 ->
  F32.is_finite (temperature_of dT) = true /\
  (Qabs (F32.to_Q (temperature_of dT) - Spec.temperature_degrees dT)
     <= temperature_tol)%Q.
Proof.
  intros H. apply close_to_sound.
  apply (proj1 (forallb_forall _ _) temperature_check_all).
  apply zrange_In. rewrite Z2Nat.id; lia.
Qed.

Lemma diff_press_pa_raw_of_close (dp : Z) :
  0 <= dp < 2 ^ 14 ->
  F32.is_finite (diff_press_pa_raw_of dp) = true /\
  (Qabs (F32.to_Q (diff_press_pa_raw_of dp) - Spec.pressure_pascals dp)
     <= pressure_tol)%Q.
Proof.
  intros H. apply close_to_sound.
  apply (proj1 (forallb_forall _ _) pressure_check_all).
  apply zrange_In. rewrite Z2Nat.id; change (2 ^ 14) with 16384 in H; lia.
Qed.

(** C5: the report published for an accepted pair of counts holds
    [temperature = (200 x temperature_count / 2047) - 50] and
    [differential_pressure_pa =
       -((pressure_count - 0.1 x 16383) x (P_max - P_min) / (0.8 x 16383) + P_min)
        x 6894.757]
    with [P_min = -1] and [P_max = 1], computed in binary32; both are finite
    and within 1/100000 degree and 1/500 Pa of the same formulas over the
    rationals.  At the mid-scale count 8192 the pressure is -5/65536 psi and
    about -0.526 Pa, less than one count away from zero: the sign changes
    between the counts 8191 and 8192. *)
Theorem physical_conversion (io : collect_io) (d : MEASAirspeed) :
  0 <= transfer_ret io ->
  status_of (val io) = STATUS_NORMAL ->
  dT_raw_of (val io) <> 2047 ->
  dp_raw_of (val io) <> _dp_raw_prev d ->
  dT_raw_of (val io) <> _dT_raw_prev d ->
  let pressure_count := dp_raw_of (val io) in
  let temperature_count := dT_raw_of (val io) in
  (exists r,
     published r d (fst (collect io d)) /\
     temperature r =
       F32.sub
         (F32.div (F32.mul (F32.of_int 200) (F32.of_int temperature_count))
                  (F32.of_int 2047))
         (F32.of_int 50) /\
     differential_pressure_pa r =
       F32.mul
         (F32.neg
            (F32.add
               (F32.div
                  (F32.mul
                     (F32.sub (F32.of_int pressure_count)
                              (F32.mul (F32.lit 1 10) (F32.of_int 16383)))
                     (F32.sub (F32.of_int 1) (F32.of_int (-1))))
                  (F32.mul (F32.lit 8 10) (F32.of_int 16383)))
               (F32.of_int (-1))))
         (F32.lit 6894757 1000) /\
     F32.is_finite (temperature r) = true /\
     F32.is_finite (differential_pressure_pa r) = true /\
     (Qabs (F32.to_Q (temperature r) - Spec.temperature_degrees temperature_count)
        <= 1 # 100000)%Q /\
     (Qabs (F32.to_Q (differential_pressure_pa r)
            - Spec.pressure_pascals pressure_count) <= 1 # 500)%Q) /\
  (F32.to_Q (diff_press_PSI_of 8192) == - (5 # 65536))%Q /\
  (Qabs (F32.to_Q (diff_press_PSI_of 8192)) <= 1 # 10000)%Q /\
  (Qabs (F32.to_Q (diff_press_pa_raw_of 8192)) <= 1)%Q /\
  (F32.to_Q (diff_press_pa_raw_of 8192) < 0)%Q /\
  (0 < F32.to_Q (diff_press_pa_raw_of 8191))%Q.
Proof.
  intros Hr Hs HT Hp Ht. cbv zeta. split.
  - exists (report_of io d).
    rewrite (collect_accepted io d Hr Hs HT Hp Ht).
    pose proof (dT_raw_of_range (val io)) as HTr.
    pose proof (dp_raw_of_range (val io)) as Hpr.
    change (2 ^ 11) with 2048 in HTr.
    destruct (temperature_of_close (dT_raw_of (val io))) as [HfT HqT]; [lia |].
    destruct (diff_press_pa_raw_of_close (dp_raw_of (val io))) as [HfP HqP];
      [exact Hpr |].
    cbn [temperature differential_pressure_pa report_of].
    repeat split; try assumption; reflexivity.
  - repeat split; vm_compute; congruence.
Qed.

Lemma physical_conversion_witness :
  0 <= transfer_ret (read_of 0 normal_val) /\
  status_of (val (read_of 0 normal_val)) = STATUS_NORMAL /\
  dT_raw_of (val (read_of 0 normal_val)) <> 2047 /\
  dp_raw_of (val (read_of 0 normal_val)) <> _dp_raw_prev collecting_driver /\
  dT_raw_of (val (read_of 0 normal_val)) <> _dT_raw_prev collecting_driver /\
  exists r,
    published r collecting_driver (fst (collect (read_of 0 normal_val) collecting_driver)) /\
    (Qabs (F32.to_Q (differential_pressure_pa r) - Spec.pressure_pascals 8192)
       <= 1 # 500)%Q.
Proof.
  assert (0 <= transfer_ret (read_of 0 normal_val)) as H1
    by (vm_compute; discriminate).
  assert (status_of (val (read_of 0 normal_val)) = STATUS_NORMAL) as H2
    by reflexivity.
  assert (dT_raw_of (val (read_of 0 normal_val)) <> 2047) as H3
    by (vm_compute; discriminate).
  assert (dp_raw_of (val (read_of 0 normal_val)) <> _dp_raw_prev collecting_driver)
    as H4 by (vm_compute; discriminate).
  assert (dT_raw_of (val (read_of 0 normal_val)) <> _dT_raw_prev collecting_driver)
    as H5 by (vm_compute; discriminate).
  repeat (split; [assumption |]).
  destruct (physical_conversion (read_of 0 normal_val) collecting_driver H1 H2 H3 H4 H5)
    as [[r (Hp & _ & _ & _ & _ & _ & Hq)] _].
  exists r. split; [exact Hp | exact Hq].
Defined.

(** * Further properties *)

(** ** Steps and runs *)

Lemma run_app (ios1 ios2 : list run_io) (d : MEASAirspeed) :
  run (ios1 ++ ios2) d = run ios2 (run ios1 d).
Proof.
  unfold run. apply fold_left_app.
Qed.

Lemma run_cons (io : run_io) (ios : list run_io) (d : MEASAirspeed) :
  run (io :: ios) d = run ios (fst (RunImpl io d)).
Proof.
  reflexivity.
Qed.

(** A property kept by every step is kept by every run. *)
Lemma run_invariant (P : MEASAirspeed -> Prop) :
  (forall io d, P d -> P (fst (RunImpl io d))) ->
  forall ios d, P d -> P (run ios d).
Proof.
  intros Hstep ios. induction ios as [| io ios IH]; intros d Hd.
  - exact Hd.
  - rewrite run_cons. apply IH, Hstep, Hd.
Qed.

(** The four ways a step can go. *)
Lemma RunImpl_cases (io : run_io) (d : MEASAirspeed) :
  (_collect_phase d = false /\
   RunImpl io d = measurement_phase (io_measure_ret io) d) \/
  (_collect_phase d = true /\ snd (collect (io_collect io) d) <> PX4_OK /\
   RunImpl io d =
     (set_sensor_ok false (set_collect_phase false (fst (collect (io_collect io) d))),
      ScheduleNow)) \/
  (_collect_phase d = true /\ snd (collect (io_collect io) d) = PX4_OK /\
   _measure_interval d > CONVERSION_INTERVAL /\
   RunImpl io d =
     (set_collect_phase false (fst (collect (io_collect io) d)),
      ScheduleDelayed (to_int (_measure_interval d - CONVERSION_INTERVAL)))) \/
  (_collect_phase d = true /\ snd (collect (io_collect io) d) = PX4_OK /\
   _measure_interval d <= CONVERSION_INTERVAL /\
   RunImpl io d =
     measurement_phase (io_measure_ret io)
       (set_collect_phase false (fst (collect (io_collect io) d)))).
Proof.
  destruct (_collect_phase d) eqn:Hph.
  - right.
    destruct (Z.eq_dec (snd (collect (io_collect io) d)) PX4_OK) as [Hok | Hne].
    + right. destruct (Z_gt_le_dec (_measure_interval d) CONVERSION_INTERVAL) as [Hg | Hg].
      * left. repeat split; try assumption. now apply RunImpl_collect_gap.
      * right. repeat split; try assumption. now apply RunImpl_collect_no_gap.
    + left. repeat split; try assumption. now apply RunImpl_collect_failed.
  - left. split; [reflexivity |]. now apply RunImpl_measure.
Qed.

(** A step changes the cache and the topic only through its collect. *)
Lemma RunImpl_raw_prev (io : run_io) (d : MEASAirspeed) :
  raw_prev (fst (RunImpl io d)) =
    if _collect_phase d then raw_prev (fst (collect (io_collect io) d)) else raw_prev d.
Proof.
  destruct (RunImpl_cases io d) as [(Hph & ->) | [(Hph & _ & ->) | [(Hph & _ & _ & ->) | (Hph & _ & _ & ->)]]];
    rewrite Hph; try reflexivity.
  - apply measurement_phase_facts.
  - now destruct (measurement_phase_facts (io_measure_ret io)
                    (set_collect_phase false (fst (collect (io_collect io) d))))
      as (_ & _ & _ & _ & _ & -> & _).
Qed.

Lemma RunImpl_pub (io : run_io) (d : MEASAirspeed) :
  _differential_pressure_pub (fst (RunImpl io d)) =
    if _collect_phase d
    then _differential_pressure_pub (fst (collect (io_collect io) d))
    else _differential_pressure_pub d.
Proof.
  destruct (RunImpl_cases io d) as [(Hph & ->) | [(Hph & _ & ->) | [(Hph & _ & _ & ->) | (Hph & _ & _ & ->)]]];
    rewrite Hph; try reflexivity.
  - apply measurement_phase_facts.
  - now destruct (measurement_phase_facts (io_measure_ret io)
                    (set_collect_phase false (fst (collect (io_collect io) d))))
      as (_ & _ & _ & _ & _ & _ & ->).
Qed.

Lemma measurement_phase_measure_interval (ret : Z) (d : MEASAirspeed) :
  _measure_interval (fst (measurement_phase ret d)) = _measure_interval d.
Proof.
  rewrite measurement_phase_eq. unfold measure.
  destruct (negb (OK =? ret)); reflexivity.
Qed.

Lemma RunImpl_measure_interval (io : run_io) (d : MEASAirspeed) :
  _measure_interval (fst (RunImpl io d)) = _measure_interval d.
Proof.
  destruct (RunImpl_cases io d) as [(Hph & ->) | [(Hph & _ & ->) | [(Hph & _ & _ & ->) | (Hph & _ & _ & ->)]]];
    rewrite ?measurement_phase_measure_interval; cbn [fst _measure_interval set_sensor_ok set_collect_phase];
    rewrite ?collect_measure_interval; reflexivity.
Qed.

(** ** The cache over a run *)

Lemma collect_cache_in_range (io : collect_io) (d : MEASAirspeed) :
  cache_in_range d -> cache_in_range (fst (collect io d)).
Proof.
  unfold cache_in_range. intros Hd.
  destruct (collect_takes_path io d); cbn; try exact Hd.
  pose proof (dp_raw_of_range (val io)). pose proof (dT_raw_of_range (val io)).
  change (2 ^ 11) with 2048 in *. lia.
Qed.

Lemma RunImpl_cache_in_range (io : run_io) (d : MEASAirspeed) :
  cache_in_range d -> cache_in_range (fst (RunImpl io d)).
Proof.
  intros Hd. pose proof (RunImpl_raw_prev io d) as H.
  pose proof (collect_cache_in_range (io_collect io) d Hd) as Hc.
  unfold cache_in_range, raw_prev in *.
  destruct (_collect_phase d); injection H as -> ->; assumption.
Qed.

(** X1: the cache only ever holds counts that [collect] accepts: a pressure
    count below 2^14 and a temperature count below 2047.  Every step keeps
    this, so it holds after any run of a driver made by the constructor. *)
Theorem cache_in_range_invariant (ios : list run_io) (d : MEASAirspeed) (dev_id : Z) :
  (cache_in_range d -> cache_in_range (run ios d)) /\
  cache_in_range (run ios (MEASAirspeed_new dev_id)).
Proof.
  split.
  - apply (run_invariant cache_in_range RunImpl_cache_in_range).
  - apply (run_invariant cache_in_range RunImpl_cache_in_range).
    unfold cache_in_range. cbn. lia.
Qed.

Lemma cache_in_range_invariant_witness :
  cache_in_range slow_collecting_driver /\
  cache_in_range (run [step_of 0 normal_val 0; step_of 0 saturated_val 0]
                    slow_collecting_driver).
Proof.
  assert (cache_in_range slow_collecting_driver) as H
    by (unfold cache_in_range; cbn; lia).
  split; [exact H |].
  exact (proj1 (cache_in_range_invariant
                  [step_of 0 normal_val 0; step_of 0 saturated_val 0]
                  slow_collecting_driver 1) H).
Defined.

(** ** The schedule of a started driver *)

Lemma RunImpl_started (io : run_io) (d : MEASAirspeed) :
  started d -> started (fst (RunImpl io d)).
Proof.
  unfold started. intros [Hm Hs]. split.
  - now rewrite RunImpl_measure_interval.
  - destruct (RunImpl_cases io d)
      as [(Hph & ->) | [(Hph & _ & ->) | [(Hph & _ & Hg & _) | (Hph & _ & _ & ->)]]].
    + destruct (measurement_phase_facts (io_measure_ret io) d) as (-> & _). discriminate.
    + reflexivity.
    + rewrite Hm in Hg. change CONVERSION_INTERVAL with 10000 in Hg. lia.
    + destruct (measurement_phase_facts (io_measure_ret io)
                  (set_collect_phase false (fst (collect (io_collect io) d))))
        as (-> & _). discriminate.
Qed.

Lemma run_started (ios : list run_io) (dev_id : Z) :
  started (run ios (MEASAirspeed_new dev_id)).
Proof.
  apply (run_invariant started RunImpl_started). split; reflexivity.
Qed.

(** X2: the constructor sets [_measure_interval] to 0 and nothing changes
    it, so a started driver never takes the collect-to-measure gap: every step
    ends in [ScheduleNow] or in a delay of the conversion interval.  It ends in
    [ScheduleNow], with the phase back at MEASURE, exactly when it was a
    collect that failed; after every other step the phase is COLLECT, a
    successful collect being followed by the next measurement in the same
    call.  [_sensor_ok] is false whenever the phase is MEASURE. *)
Theorem started_driver_schedule (ios : list run_io) (io : run_io) (dev_id : Z) :
  let d := run ios (MEASAirspeed_new dev_id) in
  _measure_interval d = 0 /\
  (snd (RunImpl io d) = ScheduleNow \/
   snd (RunImpl io d) = ScheduleDelayed CONVERSION_INTERVAL) /\
  (snd (RunImpl io d) = ScheduleNow <->
     _collect_phase d = true /\ collect_fails (io_collect io)) /\
  (_collect_phase (fst (RunImpl io d)) = false <->
     _collect_phase d = true /\ collect_fails (io_collect io)) /\
  (_collect_phase d = false -> _sensor_ok d = false).
Proof.
  cbv zeta. destruct (run_started ios dev_id) as [Hm Hs].
  remember (run ios (MEASAirspeed_new dev_id)) as d eqn:Hd. clear Hd.
  split; [exact Hm |].
  assert (forall ret d0, snd (measurement_phase ret d0) = ScheduleDelayed CONVERSION_INTERVAL /\
                         _collect_phase (fst (measurement_phase ret d0)) = true) as Hmp.
  { intros ret d0. now destruct (measurement_phase_facts ret d0) as (-> & -> & _). }
  destruct (RunImpl_cases io d)
    as [(Hph & ->) | [(Hph & Hf & ->) | [(Hph & _ & Hg & _) | (Hph & Hok & _ & ->)]]].
  - destruct (Hmp (io_measure_ret io) d) as [-> ->].
    repeat split; auto; try discriminate; try (intros [? _]; congruence).
  - cbn [fst snd _collect_phase set_sensor_ok set_collect_phase].
    apply collect_fails_iff in Hf. repeat split; auto.
  - rewrite Hm in Hg. change CONVERSION_INTERVAL with 10000 in Hg. lia.
  - destruct (Hmp (io_measure_ret io)
                (set_collect_phase false (fst (collect (io_collect io) d)))) as [-> ->].
    assert (~ collect_fails (io_collect io)) as Hnf.
    { intros Hf. apply (collect_fails_iff _ d) in Hf. contradiction. }
    repeat split; auto; try discriminate; try (intros [_ ?]; contradiction).
Qed.

Lemma started_driver_schedule_witness :
  _collect_phase (run [step_of 0 normal_val 0] (MEASAirspeed_new 1)) = true /\
  collect_fails (io_collect (step_of 0 stale_val 0)) /\
  snd (RunImpl (step_of 0 stale_val 0) (run [step_of 0 normal_val 0] (MEASAirspeed_new 1)))
    = ScheduleNow.
Proof.
  assert (collect_fails (io_collect (step_of 0 stale_val 0))) as Hf.
  { right; left. vm_compute. discriminate. }
  split; [reflexivity | split; [exact Hf |]].
  destruct (started_driver_schedule [step_of 0 normal_val 0] (step_of 0 stale_val 0) 1)
    as (_ & _ & H & _).
  apply H. split; [reflexivity | exact Hf].
Defined.

(** ** The error counter over a run *)

Lemma collect_comms_errors_step (io : collect_io) (d : MEASAirspeed) :
  _comms_errors (fst (collect io d)) <= _comms_errors d + 1 /\
  (snd (collect io d) = PX4_OK -> _comms_errors (fst (collect io d)) = _comms_errors d).
Proof.
  destruct (collect_takes_path io d); cbn; unfold Perf.perf_count; unfold_codes;
    split; intros; lia.
Qed.

Lemma measurement_phase_comms_errors_step (ret : Z) (d : MEASAirspeed) :
  _comms_errors (fst (measurement_phase ret d)) <= _comms_errors d + 1.
Proof.
  destruct (measurement_phase_facts ret d) as (_ & _ & _ & Hok & Hne & _).
  destruct (Z.eq_dec ret OK) as [E | E]; [rewrite (Hok E) | rewrite (Hne E)]; lia.
Qed.

Lemma RunImpl_comms_errors_step (io : run_io) (d : MEASAirspeed) :
  _comms_errors (fst (RunImpl io d)) <= _comms_errors d + 1.
Proof.
  destruct (collect_comms_errors_step (io_collect io) d) as [Hc Hok].
  destruct (RunImpl_cases io d)
    as [(Hph & ->) | [(Hph & _ & ->) | [(Hph & _ & _ & ->) | (Hph & Hret & _ & ->)]]].
  - apply measurement_phase_comms_errors_step.
  - exact Hc.
  - exact Hc.
  - pose proof (measurement_phase_comms_errors_step (io_measure_ret io)
                  (set_collect_phase false (fst (collect (io_collect io) d)))) as Hm.
    cbn [_comms_errors set_collect_phase] in Hm. rewrite (Hok Hret) in Hm. exact Hm.
Qed.

(** X3: a step counts at most one comms error, though it may make two bus
    transfers: a collect that counts one returns before the measurement.  So
    after a run the counter lies between its old value and the old value plus
    the number of steps. *)
Theorem comms_errors_one_per_step (ios : list run_io) (io : run_io) (d : MEASAirspeed) :
  _comms_errors d <= _comms_errors (fst (RunImpl io d)) <= _comms_errors d + 1 /\
  _comms_errors d <= _comms_errors (run ios d)
    <= _comms_errors d + Z.of_nat (List.length ios).
Proof.
  split.
  - split; [apply RunImpl_comms_errors_mono | apply RunImpl_comms_errors_step].
  - split; [apply run_comms_errors_mono |].
    revert d. induction ios as [| io' ios IH]; intros d.
    + cbn. lia.
    + rewrite run_cons. specialize (IH (fst (RunImpl io' d))).
      pose proof (RunImpl_comms_errors_step io' d).
      change (List.length (io' :: ios)) with (S (List.length ios)). lia.
Qed.

(** ** The topic over a run *)



Lemma RunImpl_collect_comms_errors (io : run_io) (d : MEASAirspeed) :
  _collect_phase d = true ->
  _comms_errors (fst (collect (io_collect io) d)) <= _comms_errors (fst (RunImpl io d)).
Proof.
  intros Hph.
  destruct (RunImpl_cases io d)
    as [(Hph' & _) | [(_ & _ & ->) | [(_ & _ & _ & ->) | (_ & _ & _ & ->)]]];
    [congruence | cbn; lia | cbn; lia |].
  apply (measure_comms_errors_mono (io_measure_ret io)
           (set_collect_phase false (fst (collect (io_collect io) d)))).
Qed.




(** ** Change suppression over a run *)

Lemma collect_keeps_when_one_equal (io : collect_io) (d : MEASAirspeed) :
  dp_raw_of (val io) = _dp_raw_prev d \/ dT_raw_of (val io) = _dT_raw_prev d ->
  raw_prev (fst (collect io d)) = raw_prev d /\ no_publish d (fst (collect io d)).
Proof.
  unfold no_publish. intros Heq.
  destruct (collect_takes_path io d); cbn; try (split; reflexivity).
  destruct Heq; contradiction.
Qed.

Lemma RunImpl_keeps_when_one_equal (io : run_io) (d : MEASAirspeed) :
  dp_raw_of (val (io_collect io)) = _dp_raw_prev d \/
  dT_raw_of (val (io_collect io)) = _dT_raw_prev d ->
  raw_prev (fst (RunImpl io d)) = raw_prev d /\ no_publish d (fst (RunImpl io d)).
Proof.
  intros Heq. unfold no_publish. rewrite RunImpl_raw_prev, RunImpl_pub.
  destruct (_collect_phase d); [| split; reflexivity].
  apply (collect_keeps_when_one_equal _ _ Heq).
Qed.

(** X5: while every response carries the cached pressure count, nothing is
    published and the cache stays as it is, whatever the temperature counts
    are; the same holds with the two counts exchanged.  A reading that changes
    in one value only never reaches the subscribers. *)
Theorem no_publish_while_one_count_constant (ios : list run_io) (d : MEASAirspeed) :
  Forall (fun io => dp_raw_of (val (io_collect io)) = _dp_raw_prev d) ios \/
  Forall (fun io => dT_raw_of (val (io_collect io)) = _dT_raw_prev d) ios ->
  no_publish d (run ios d) /\ raw_prev (run ios d) = raw_prev d.
Proof.
  revert d. induction ios as [| io ios IH]; intros d H.
  - split; reflexivity.
  - rewrite run_cons.
    assert (dp_raw_of (val (io_collect io)) = _dp_raw_prev d \/
            dT_raw_of (val (io_collect io)) = _dT_raw_prev d) as Hio.
    { destruct H as [H | H]; inversion H; auto. }
    destruct (RunImpl_keeps_when_one_equal io d Hio) as [Hc Hp].
    assert (_dp_raw_prev (fst (RunImpl io d)) = _dp_raw_prev d /\
            _dT_raw_prev (fst (RunImpl io d)) = _dT_raw_prev d) as [Ep Et].
    { unfold raw_prev in Hc. injection Hc as -> ->. split; reflexivity. }
    destruct (IH (fst (RunImpl io d))) as [Hp' Hc'].
    { destruct H as [H | H]; [left | right]; inversion H; subst.
      - now rewrite Ep.
      - now rewrite Et. }
    unfold no_publish in *. split; [now rewrite Hp', Hp | now rewrite Hc', Hc].
Qed.

Lemma no_publish_while_one_count_constant_witness :
  Forall (fun io => dT_raw_of (val (io_collect io)) = _dT_raw_prev slow_collecting_driver)
    [step_of 0 (mk_val4 Byte.x20 Byte.x00 Byte.x00 Byte.x00) 0;
     step_of 0 (mk_val4 Byte.x10 Byte.x07 Byte.x00 Byte.x1f) 0] /\
  no_publish slow_collecting_driver
    (run [step_of 0 (mk_val4 Byte.x20 Byte.x00 Byte.x00 Byte.x00) 0;
          step_of 0 (mk_val4 Byte.x10 Byte.x07 Byte.x00 Byte.x1f) 0]
       slow_collecting_driver).
Proof.
  assert (Forall (fun io => dT_raw_of (val (io_collect io))
                            = _dT_raw_prev slow_collecting_driver)
            [step_of 0 (mk_val4 Byte.x20 Byte.x00 Byte.x00 Byte.x00) 0;
             step_of 0 (mk_val4 Byte.x10 Byte.x07 Byte.x00 Byte.x1f) 0]) as H
    by (repeat constructor).
  split; [exact H |].
  exact (proj1 (no_publish_while_one_count_constant _ _ (or_intror H))).
Defined.

(** ** Recovery from a failed collect *)

(** X6: after a collect that failed, the next step is a measurement: it
    leaves the driver in the COLLECT phase with [_sensor_ok] telling whether
    the command went out, the cache and the topic are as before the failure,
    and the collect that retries is due one conversion interval after the
    failed one. *)
Theorem failed_collect_recovery (io1 io2 : run_io) (d : MEASAirspeed) (now : Z) :
  _collect_phase d = true ->
  collect_fails (io_collect io1) ->
  let d2 := run [io1; io2] d in
  _collect_phase d2 = true /\
  (_sensor_ok d2 = true <-> io_measure_ret io2 = OK) /\
  raw_prev d2 = raw_prev d /\
  no_publish d d2 /\
  wq_driver (wq_run [io1; io2] {| wq_due := now; wq_driver := d |}) = d2 /\
  wq_due (wq_run [io1; io2] {| wq_due := now; wq_driver := d |})
    = now + CONVERSION_INTERVAL.
Proof.
  intros Hph Hf. cbv zeta.
  destruct (failed_collect_restarts io1 d Hph Hf) as (Hc & Hp & Hr1 & Hr2 & Hr3).
  unfold run, wq_run, wq_step. cbn [fold_left wq_driver wq_due].
  destruct (RunImpl io1 d) as [d1 s1]. cbn [fst snd] in *. subst s1.
  cbn [wq_driver wq_due delay_of].
  rewrite (RunImpl_measure io2 d1 Hr1).
  destruct (measurement_phase_facts (io_measure_ret io2) d1)
    as (H1 & H2 & H3 & _ & _ & H6 & H7).
  destruct (measurement_phase (io_measure_ret io2) d1) as [d2 s2].
  cbn [fst snd] in *. subst s2. cbn [wq_driver wq_due delay_of].
  unfold no_publish in *.
  repeat split; try apply H3; try assumption; try congruence; try lia.
Qed.

Lemma failed_collect_recovery_witness :
  _collect_phase collecting_driver = true /\
  collect_fails (io_collect (step_of (-5) normal_val 0)) /\
  _collect_phase
    (run [step_of (-5) normal_val 0; step_of 0 normal_val 0] collecting_driver) = true.
Proof.
  assert (collect_fails (io_collect (step_of (-5) normal_val 0))) as Hf
    by (left; reflexivity).
  split; [reflexivity | split; [exact Hf |]].
  exact (proj1 (failed_collect_recovery (step_of (-5) normal_val 0)
                  (step_of 0 normal_val 0) collecting_driver 0 eq_refl Hf)).
Defined.

(** ** The shape of the conversions *)

(** The formulas over the rationals are straight lines in the count. *)
Lemma pressure_pascals_affine (p : Z) :
  (Spec.pressure_pascals p == (6894757 # 800) - (6894757 # 6553200) * inject_Z p)%Q.
Proof.
  unfold Spec.pressure_pascals, Spec.pressure_psi, Spec.P_max, Spec.P_min.
  field.
Qed.

Lemma temperature_degrees_affine (t : Z) :
  (Spec.temperature_degrees t == (200 # 2047) * inject_Z t - 50)%Q.
Proof.
  unfold Spec.temperature_degrees. field.
Qed.

Lemma inject_Z_succ_le (a b : Z) : a < b -> (inject_Z a + 1 <= inject_Z b)%Q.
Proof.
  intros H.
  assert (inject_Z (a + 1) <= inject_Z b)%Q as H' by (rewrite <- Zle_Qle; lia).
  rewrite inject_Z_plus in H'. exact H'.
Qed.

(** The binary32 results stay within the tolerance of the lines. *)
Lemma pa_Q_near (dp : Z) :
  0 <= dp < 2 ^ 14 ->
  F32.is_finite (diff_press_pa_raw_of dp) = true /\
  ((6894757 # 800) - (6894757 # 6553200) * inject_Z dp - (1 # 500) <= pa_Q dp)%Q /\
  (pa_Q dp <= (6894757 # 800) - (6894757 # 6553200) * inject_Z dp + (1 # 500))%Q.
Proof.
  intros H. destruct (diff_press_pa_raw_of_close dp H) as [Hf Hq].
  split; [exact Hf |].
  apply Qabs_Qle_condition in Hq. unfold pressure_tol in Hq.
  rewrite pressure_pascals_affine in Hq. unfold pa_Q. lra.
Qed.

Lemma degrees_Q_near (dT : Z) :
  0 <= dT < 2047 ->
  F32.is_finite (temperature_of dT) = true /\
  ((200 # 2047) * inject_Z dT - 50 - (1 # 100000) <= degrees_Q dT)%Q /\
  (degrees_Q dT <= (200 # 2047) * inject_Z dT - 50 + (1 # 100000))%Q.
Proof.
  intros H. destruct (temperature_of_close dT H) as [Hf Hq].
  split; [exact Hf |].
  apply Qabs_Qle_condition in Hq. unfold temperature_tol in Hq.
  rewrite temperature_degrees_affine in Hq. unfold degrees_Q. lra.
Qed.

Lemma pa_Q_decreasing (a b : Z) :
  0 <= a -> a < b -> b < 2 ^ 14 -> (pa_Q b < pa_Q a)%Q.
Proof.
  intros Ha Hab Hb.
  destruct (pa_Q_near a) as (_ & Hla & _); [lia |].
  destruct (pa_Q_near b) as (_ & _ & Hub); [lia |].
  pose proof (inject_Z_succ_le a b Hab). lra.
Qed.

Lemma degrees_Q_increasing (a b : Z) :
  0 <= a -> a < b -> b < 2047 -> (degrees_Q a < degrees_Q b)%Q.
Proof.
  intros Ha Hab Hb.
  destruct (degrees_Q_near a) as (_ & _ & Hua); [lia |].
  destruct (degrees_Q_near b) as (_ & Hlb & _); [lia |].
  pose proof (inject_Z_succ_le a b Hab). lra.
Qed.

Lemma pressure_shape (dp : Z) :
  0 <= dp < 2 ^ 14 ->
  F32.is_finite (diff_press_pa_raw_of dp) = true /\
  (dp <= 8191 -> (0 < pa_Q dp)%Q) /\
  (8192 <= dp -> (pa_Q dp < 0)%Q) /\
  (Qabs (pa_Q dp) <= pa_max)%Q.
Proof.
  intros Hdp. destruct (pa_Q_near dp Hdp) as (Hf & Hl & Hu).
  assert (0 <= inject_Z dp)%Q as H0.
  { change 0%Q with (inject_Z 0). rewrite <- Zle_Qle. lia. }
  assert (inject_Z dp <= 16383)%Q as H1.
  { change 16383%Q with (inject_Z 16383). rewrite <- Zle_Qle.
    change (2 ^ 14) with 16384 in Hdp. lia. }
  split; [exact Hf | split; [| split]].
  - intros Hle.
    assert (inject_Z dp <= 8191)%Q as H2.
    { change 8191%Q with (inject_Z 8191). now rewrite <- Zle_Qle. }
    lra.
  - intros Hge.
    assert (8192 <= inject_Z dp)%Q as H2.
    { change 8192%Q with (inject_Z 8192). now rewrite <- Zle_Qle. }
    lra.
  - apply Qabs_Qle_condition. unfold pa_max. lra.
Qed.

Lemma temperature_shape (dT : Z) :
  0 <= dT < 2047 ->
  F32.is_finite (temperature_of dT) = true /\
  (- (50) <= degrees_Q dT)%Q /\ (degrees_Q dT < 150)%Q.
Proof.
  intros HdT. destruct (degrees_Q_near dT HdT) as (Hf & Hl & Hu).
  assert (inject_Z dT <= 2046)%Q as H1.
  { change 2046%Q with (inject_Z 2046). rewrite <- Zle_Qle. lia. }
  split; [exact Hf | split; [| lra]].
  destruct (Z.eq_dec dT 0) as [-> | Hne].
  - vm_compute. discriminate.
  - assert (1 <= inject_Z dT)%Q as H2.
    { change 1%Q with (inject_Z 1). rewrite <- Zle_Qle. lia. }
    lra.
Qed.

(** X7: the sign convention of the pressure.  For every pressure count the
    result is finite and never zero: positive for the counts up to 8191,
    negative from 8192 on, and at most 1.25 psi (8618.45 Pa) either way. *)
Theorem pressure_sign_and_bound (dp : Z) :
  0 <= dp < 2 ^ 14 ->
  F32.is_finite (diff_press_pa_raw_of dp) = true /\
  (dp <= 8191 -> (0 < pa_Q dp)%Q) /\
  (8192 <= dp -> (pa_Q dp < 0)%Q) /\
  (Qabs (pa_Q dp) <= 861845 # 100)%Q.
Proof.
  apply pressure_shape.
Qed.

Lemma pressure_sign_and_bound_witness :
  0 <= 16383 < 2 ^ 14 /\ 8192 <= 16383 /\ (pa_Q 16383 < 0)%Q.
Proof.
  assert (0 <= 16383 < 2 ^ 14) as H by (change (2 ^ 14) with 16384; lia).
  assert (8192 <= 16383) as H' by lia.
  split; [exact H | split; [exact H' |]].
  exact (proj1 (proj2 (proj2 (pressure_sign_and_bound 16383 H))) H').
Defined.

(** X8: the pressure goes strictly down as the count goes up, over the
    whole range of counts, so two different counts never give the same
    pressure. *)
Theorem pressure_strictly_decreasing (a b : Z) :
  0 <= a -> a < b -> b < 2 ^ 14 ->
  (pa_Q b < pa_Q a)%Q /\
  diff_press_pa_raw_of a <> diff_press_pa_raw_of b.
Proof.
  intros Ha Hab Hb. pose proof (pa_Q_decreasing a b Ha Hab Hb) as H.
  split; [exact H |].
  intros E. unfold pa_Q in H. rewrite E in H. exact (Qlt_irrefl _ H).
Qed.

Lemma pressure_strictly_decreasing_witness :
  0 <= 0 /\ 0 < 16383 /\ 16383 < 2 ^ 14 /\ (pa_Q 16383 < pa_Q 0)%Q.
Proof.
  assert (0 <= 0) as H1 by lia. assert (0 < 16383) as H2 by lia.
  assert (16383 < 2 ^ 14) as H3 by (change (2 ^ 14) with 16384; lia).
  split; [exact H1 | split; [exact H2 | split; [exact H3 |]]].
  exact (proj1 (pressure_strictly_decreasing 0 16383 H1 H2 H3)).
Defined.

(** X9: for every temperature count [collect] accepts the temperature is
    finite and lies between -50 degrees (count 0) and 150 degrees, and it goes
    strictly up with the count. *)
Theorem temperature_range_and_order (a b : Z) :
  0 <= a -> a < b -> b < 2047 ->
  F32.is_finite (temperature_of a) = true /\
  F32.is_finite (temperature_of b) = true /\
  (- (50) <= degrees_Q a)%Q /\
  (degrees_Q a < degrees_Q b)%Q /\
  (degrees_Q b < 150)%Q /\
  (degrees_Q 0 == - (50))%Q /\
  temperature_of a <> temperature_of b.
Proof.
  intros Ha Hab Hb.
  destruct (temperature_shape a) as (Hfa & Hla & _); [lia |].
  destruct (temperature_shape b) as (Hfb & _ & Hub); [lia |].
  pose proof (degrees_Q_increasing a b Ha Hab Hb) as Hlt.
  split; [exact Hfa | split; [exact Hfb | split; [exact Hla |]]].
  split; [exact Hlt | split; [exact Hub | split; [reflexivity |]]].
  intros E. unfold degrees_Q in Hlt. rewrite E in Hlt. exact (Qlt_irrefl _ Hlt).
Qed.

Lemma temperature_range_and_order_witness :
  0 <= 0 /\ 0 < 2046 /\ 2046 < 2047 /\ (degrees_Q 0 < degrees_Q 2046)%Q.
Proof.
  assert (0 <= 0) as H1 by lia. assert (0 < 2046) as H2 by lia.
  assert (2046 < 2047) as H3 by lia.
  split; [exact H1 | split; [exact H2 | split; [exact H3 |]]].
  exact (proj1 (proj2 (proj2 (proj2 (temperature_range_and_order 0 2046 H1 H2 H3))))).
Defined.

(** ** Consecutive reports *)







(** ** The fields of a response *)

Lemma u8_inj (a b : byte) : u8 a = u8 b -> a = b.
Proof.
  unfold u8. intros H. apply N2Z.inj in H.
  pose proof (Byte.of_to_N a) as Ea. pose proof (Byte.of_to_N b) as Eb.
  rewrite H in Ea. congruence.
Qed.

Lemma u8_onto (n : Z) : 0 <= n < 2 ^ 8 -> exists b, u8 b = n.
Proof.
  intros Hn. change (2 ^ 8) with 256 in Hn.
  destruct (Byte.of_N (Z.to_N n)) as [b |] eqn:E.
  - exists b. unfold u8. apply Byte.to_of_N in E. rewrite E. lia.
  - apply Byte.of_N_None_iff in E. lia.
Qed.

(** X11: the four bytes split into the fields with nothing shared and, but
    for the five low bits of byte 3, nothing lost: bytes 0 and 1 are the
    status times 2^14 plus the pressure count, bytes 2 and 3 the temperature
    count times 32 plus those five bits.  Two responses with the same status
    and pressure count have the same bytes 0 and 1, and every status with
    every pair of counts in range is the decoding of some response. *)
Theorem response_fields (v v' : val4) (s p t : Z) :
  Spec.word16_be (val0 v) (val1 v) = status_of v * 2 ^ 14 + dp_raw_of v /\
  Spec.word16_be (val2 v) (val3 v) = dT_raw_of v * 2 ^ 5 + u8 (val3 v) mod 2 ^ 5 /\
  (status_of v' = status_of v -> dp_raw_of v' = dp_raw_of v ->
     val0 v' = val0 v /\ val1 v' = val1 v) /\
  (0 <= s < 4 -> 0 <= p < 2 ^ 14 -> 0 <= t < 2 ^ 11 ->
     exists w, status_of w = s /\ dp_raw_of w = p /\ dT_raw_of w = t).
Proof.
  assert (forall w, Spec.word16_be (val0 w) (val1 w) = status_of w * 2 ^ 14 + dp_raw_of w)
    as Hw01.
  { intros w. rewrite status_of_div, dp_raw_of_spec.
    unfold Spec.pressure_count, Spec.word16_be.
    pose proof (u8_range (val0 w)). pose proof (u8_range (val1 w)).
    change (2 ^ 8) with 256 in *. change (2 ^ 14) with 16384. change (2 ^ 6) with 64.
    Z.div_mod_to_equations. lia. }
  split; [apply Hw01 | split; [| split]].
  - rewrite dT_raw_of_div. unfold Spec.word16_be.
    pose proof (u8_range (val2 v)). pose proof (u8_range (val3 v)).
    change (2 ^ 8) with 256 in *. change (2 ^ 5) with 32.
    Z.div_mod_to_equations. lia.
  - intros Hs Hp.
    pose proof (Hw01 v) as E. pose proof (Hw01 v') as E'.
    rewrite Hs, Hp, <- E in E'. unfold Spec.word16_be in E'.
    pose proof (u8_range (val0 v)). pose proof (u8_range (val1 v)).
    pose proof (u8_range (val0 v')). pose proof (u8_range (val1 v')).
    change (2 ^ 8) with 256 in *.
    split; apply u8_inj; lia.
  - intros Hs Hp Ht. change (2 ^ 14) with 16384 in Hp. change (2 ^ 11) with 2048 in Ht.
    destruct (u8_onto (s * 64 + p / 256)) as [b0 E0].
    { change (2 ^ 8) with 256. Z.div_mod_to_equations. lia. }
    destruct (u8_onto (p mod 256)) as [b1 E1].
    { change (2 ^ 8) with 256. Z.div_mod_to_equations. lia. }
    destruct (u8_onto (t / 8)) as [b2 E2].
    { change (2 ^ 8) with 256. Z.div_mod_to_equations. lia. }
    destruct (u8_onto ((t mod 8) * 32)) as [b3 E3].
    { change (2 ^ 8) with 256. Z.div_mod_to_equations. lia. }
    exists (mk_val4 b0 b1 b2 b3).
    rewrite status_of_div, dp_raw_of_spec, dT_raw_of_div.
    unfold Spec.pressure_count, Spec.word16_be. cbn [val0 val1 val2 val3].
    rewrite E0, E1, E2, E3.
    change (2 ^ 8) with 256. change (2 ^ 14) with 16384. change (2 ^ 6) with 64.
    change (2 ^ 5) with 32.
    repeat split; Z.div_mod_to_equations; lia.
Qed.

Lemma response_fields_witness :
  0 <= 3 < 4 /\ 0 <= 16383 < 2 ^ 14 /\ 0 <= 2046 < 2 ^ 11 /\
  exists w, status_of w = 3 /\ dp_raw_of w = 16383 /\ dT_raw_of w = 2046.
Proof.
  assert (0 <= 3 < 4) as H1 by lia.
  assert (0 <= 16383 < 2 ^ 14) as H2 by (change (2 ^ 14) with 16384; lia).
  assert (0 <= 2046 < 2 ^ 11) as H3 by (change (2 ^ 11) with 2048; lia).
  split; [exact H1 | split; [exact H2 | split; [exact H3 |]]].
  exact (proj2 (proj2 (proj2 (response_fields normal_val normal_val 3 16383 2046)))
           H1 H2 H3).
Defined.

(** ** The result of [collect] *)

(** X12: [collect] hands a failed bus read back with its own error code and
    reports every other failure as [-EAGAIN]; it never returns a positive
    value.  A positive read result is not a failure for [collect]: the response
    is decoded as after a result of 0. *)
Theorem collect_result_codes (io : collect_io) (d : MEASAirspeed) :
  snd (collect io d) <= 0 /\
  (transfer_ret io < 0 -> snd (collect io d) = transfer_ret io) /\
  (0 <= transfer_ret io -> collect_fails io -> snd (collect io d) = - EAGAIN) /\
  (0 <= transfer_ret io -> ~ collect_fails io -> snd (collect io d) = PX4_OK) /\
  (0 <= transfer_ret io -> collect io d = collect (with_transfer_ret 0 io) d).
Proof.
  split; [| split; [| split; [| split]]].
  - destruct (collect_takes_path io d); cbn; unfold_codes; lia.
  - intros H. now rewrite collect_bus_error.
  - intros H Hf. unfold collect_fails in Hf.
    destruct (collect_takes_path io d); cbn; unfold_codes; try reflexivity; lia.
  - intros H Hf. unfold collect_fails in Hf.
    destruct (collect_takes_path io d); cbn; unfold_codes; try reflexivity;
      exfalso; apply Hf; lia.
  - intros H. unfold collect. cbn [with_transfer_ret transfer_ret val hrt_sample hrt_publish].
    destruct (Z.ltb_spec (transfer_ret io) 0); [lia | reflexivity].
Qed.

Lemma collect_result_codes_witness :
  transfer_ret (read_of (-5) normal_val) < 0 /\
  snd (collect (read_of (-5) normal_val) collecting_driver) = -5 /\
  0 <= transfer_ret (read_of 4 normal_val) /\
  collect (read_of 4 normal_val) collecting_driver
    = collect (read_of 0 normal_val) collecting_driver.
Proof.
  assert (transfer_ret (read_of (-5) normal_val) < 0) as H1 by reflexivity.
  assert (0 <= transfer_ret (read_of 4 normal_val)) as H2 by (vm_compute; discriminate).
  destruct (collect_result_codes (read_of (-5) normal_val) collecting_driver)
    as (_ & Ha & _).
  destruct (collect_result_codes (read_of 4 normal_val) collecting_driver)
    as (_ & _ & _ & _ & Hb).
  split; [exact H1 | split; [exact (Ha H1) | split; [exact H2 | exact (Hb H2)]]].
Defined.

(** ** The sample timer *)

(** X13: [collect] opens [_sample_perf] on entry and closes it on three of
    its paths only: the failed bus read, the Fault status and the normal
    return.  On a Reserved or Stale status and on a saturated temperature it
    returns with the interval still open and nothing counted. *)
Theorem sample_perf_bracketing (io : collect_io) (d : MEASAirspeed) :
  let closed :=
    transfer_ret io < 0 \/ status_of (val io) = STATUS_FAULT \/
    snd (collect io d) = PX4_OK in
  (closed ->
     Perf.running (_sample_perf (fst (collect io d))) = false /\
     Perf.completed (_sample_perf (fst (collect io d)))
       = Perf.completed (_sample_perf d) + 1) /\
  (~ closed ->
     Perf.running (_sample_perf (fst (collect io d))) = true /\
     Perf.completed (_sample_perf (fst (collect io d)))
       = Perf.completed (_sample_perf d)) /\
  (0 <= transfer_ret io ->
   status_of (val io) = STATUS_RESERVED \/ status_of (val io) = STATUS_STALE \/
   (status_of (val io) = STATUS_NORMAL /\ dT_raw_of (val io) = 2047) ->
   ~ closed).
Proof.
  cbv zeta.
  destruct (collect_takes_path io d); cbn; unfold_codes;
    (split; [| split]); intros;
    try (split; reflexivity); try lia;
    try (exfalso; intuition lia); try (intuition lia).
Qed.

Lemma sample_perf_bracketing_witness :
  0 <= transfer_ret (read_of 0 stale_val) /\
  status_of (val (read_of 0 stale_val)) = STATUS_STALE /\
  Perf.running (_sample_perf (fst (collect (read_of 0 stale_val) collecting_driver)))
    = true /\
  Perf.running (_sample_perf (fst (collect (read_of 0 normal_val) collecting_driver)))
    = false.
Proof.
  assert (0 <= transfer_ret (read_of 0 stale_val)) as H1 by (vm_compute; discriminate).
  assert (status_of (val (read_of 0 stale_val)) = STATUS_STALE) as H2 by reflexivity.
  split; [exact H1 | split; [exact H2 | split]].
  - pose proof (sample_perf_bracketing (read_of 0 stale_val) collecting_driver) as H.
    cbv zeta in H. destruct H as (_ & Hopen & Hnot).
    exact (proj1 (Hopen (Hnot H1 (or_intror (or_introl H2))))).
  - pose proof (sample_perf_bracketing (read_of 0 normal_val) collecting_driver) as H.
    cbv zeta in H. destruct H as (Hclosed & _).
    exact (proj1 (Hclosed (or_intror (or_intror eq_refl)))).
Defined.

(** ** Starting the driver *)

(** X14: [instantiate] hands back a driver exactly when the allocation and
    [init] succeeded, and then asks for an immediate first step.  That step
    is a measurement: it reads nothing from the sensor, leaves the cache at (0, 0)
    and the topic empty and arms the first collect one conversion interval
    later. *)
Theorem instantiate_starts_with_measure
        (alloc_ok : bool) (init_ret dev_id : Z) (io : run_io) :
  (instantiate alloc_ok init_ret dev_id <> None <->
     alloc_ok = true /\ init_ret = PX4_OK) /\
  (forall d s, instantiate alloc_ok init_ret dev_id = Some (d, s) ->
     d = MEASAirspeed_new dev_id /\ s = ScheduleNow /\
     _collect_phase (fst (RunImpl io d)) = true /\
     snd (RunImpl io d) = ScheduleDelayed CONVERSION_INTERVAL /\
     raw_prev (fst (RunImpl io d)) = (0, 0) /\
     _differential_pressure_pub (fst (RunImpl io d)) = [] /\
     wq_due (wq_step io {| wq_due := delay_of s; wq_driver := d |})
       = CONVERSION_INTERVAL).
Proof.
  unfold instantiate, PX4_OK. split.
  - destruct alloc_ok; cbn [negb].
    + destruct (Z.eqb_spec init_ret 0); cbn [negb]; split; intros H;
        try discriminate; try tauto; try (destruct H; congruence).
    + split; intros H; [congruence | destruct H; discriminate].
  - intros d s H.
    destruct alloc_ok; cbn [negb] in H; [| discriminate].
    destruct (Z.eqb_spec init_ret 0); cbn [negb] in H; [| discriminate].
    injection H as <- <-.
    unfold wq_step. cbn [wq_driver wq_due delay_of].
    rewrite (RunImpl_measure io (MEASAirspeed_new dev_id) eq_refl).
    destruct (measurement_phase_facts (io_measure_ret io) (MEASAirspeed_new dev_id))
      as (H1 & H2 & _ & _ & _ & H6 & H7).
    destruct (measurement_phase (io_measure_ret io) (MEASAirspeed_new dev_id)) as [d1 s1].
    cbn [fst snd] in *. subst s1. cbn [wq_due delay_of].
    repeat split; try assumption; reflexivity.
Qed.

Lemma instantiate_starts_with_measure_witness :
  instantiate true 0 7 = Some (MEASAirspeed_new 7, ScheduleNow) /\
  _collect_phase (fst (RunImpl (step_of 0 normal_val 0) (MEASAirspeed_new 7))) = true.
Proof.
  assert (instantiate true 0 7 = Some (MEASAirspeed_new 7, ScheduleNow)) as H
    by reflexivity.
  split; [exact H |].
  destruct (instantiate_starts_with_measure true 0 7 (step_of 0 normal_val 0))
    as [_ Hs].
  exact (proj1 (proj2 (proj2 (Hs _ _ H)))).
Defined.

(** ** The command line *)

Lemma getopt_loop_no_T (atoi : string -> Z) (opts : list (ascii * string)) :
  no_T opts = true ->
  forall device_type, getopt_loop atoi opts device_type = device_type.
Proof.
  unfold no_T, getopt_loop.
  induction opts as [| o opts IH]; intros H device_type; [reflexivity |].
  cbn [forallb] in H. apply andb_prop in H. destruct H as [Ho H].
  cbn [fold_left]. apply negb_true_iff in Ho. rewrite Ho. now apply IH.
Qed.

Lemma getopt_loop_app (atoi : string -> Z) (opts1 opts2 : list (ascii * string))
      (device_type : Z) :
  getopt_loop atoi (opts1 ++ opts2) device_type
    = getopt_loop atoi opts2 (getopt_loop atoi opts1 device_type).
Proof.
  unfold getopt_loop. apply fold_left_app.
Qed.

(** X15: without a [-T] option the address is [0x28], the one of the
    MS4525; with several, the last one decides and every option before it and
    every other option after it is ignored.  Whatever the options, the address
    is [0x28] or [0x46]. *)
Theorem last_device_type_option_wins
        (atoi : string -> Z) (before after : list (ascii * string)) (arg verb : string) :
  no_T after = true ->
  cli_i2c_address (ms4525_airspeed_main atoi after (Some verb)) = Some 0x28 /\
  cli_i2c_address
    (ms4525_airspeed_main atoi (before ++ ("T"%char, arg) :: after) (Some verb))
    = cli_i2c_address (ms4525_airspeed_main atoi [("T"%char, arg)] (Some verb)) /\
  (cli_i2c_address (ms4525_airspeed_main atoi before (Some verb)) = Some 0x28 \/
   cli_i2c_address (ms4525_airspeed_main atoi before (Some verb)) = Some 0x46).
Proof.
  intros Hno. unfold ms4525_airspeed_main. cbn [cli_i2c_address].
  split; [| split].
  - now rewrite (getopt_loop_no_T atoi after Hno).
  - rewrite getopt_loop_app.
    change (("T"%char, arg) :: after) with ([("T"%char, arg)] ++ after).
    rewrite getopt_loop_app, (getopt_loop_no_T atoi after Hno). reflexivity.
  - destruct (getopt_loop atoi before DEVICE_TYPE_MS4525 =? DEVICE_TYPE_MS4525); auto.
Qed.

Lemma last_device_type_option_wins_witness :
  no_T [("?"%char, ""%string)] = true /\
  cli_i2c_address
    (ms4525_airspeed_main CLib.atoi
       ([("T"%char, "4525"%string)] ++ ("T"%char, "4515"%string) :: [("?"%char, ""%string)])
       (Some "start"%string))
    = Some 0x46.
Proof.
  assert (no_T [("?"%char, ""%string)] = true) as H by reflexivity.
  split; [exact H |].
  exact (proj1 (proj2 (last_device_type_option_wins CLib.atoi
                         [("T"%char, "4525"%string)] [("?"%char, ""%string)]
                         "4515" "start" H))).
Defined.

(** X16: what [main] goes on to do depends on the verb alone: [start],
    [stop] and [status] are dispatched, any other verb prints the usage, and
    so does a missing verb, in which case [main] returns before it stores an
    address. *)
Theorem main_dispatch (atoi : string -> Z) (opts : list (ascii * string)) (verb : string) :
  (dispatched (ms4525_airspeed_main atoi opts (Some verb)) = module_start <->
     verb = "start"%string) /\
  (dispatched (ms4525_airspeed_main atoi opts (Some verb)) = module_stop <->
     verb = "stop"%string) /\
  (dispatched (ms4525_airspeed_main atoi opts (Some verb)) = module_status <->
     verb = "status"%string) /\
  (dispatched (ms4525_airspeed_main atoi opts (Some verb)) = print_usage <->
     verb <> "start"%string /\ verb <> "stop"%string /\ verb <> "status"%string) /\
  ms4525_airspeed_main atoi opts None
    = {| cli_i2c_address := None; dispatched := print_usage |}.
Proof.
  unfold ms4525_airspeed_main. cbn [dispatched].
  destruct (String.eqb_spec verb "start") as [-> | H1].
  { repeat split; intros; try reflexivity; try discriminate; try congruence.
    destruct H as (H & _); congruence. }
  destruct (String.eqb_spec verb "stop") as [-> | H2].
  { repeat split; intros; try reflexivity; try discriminate; try congruence.
    destruct H as (_ & H & _); congruence. }
  destruct (String.eqb_spec verb "status") as [-> | H3].
  { repeat split; intros; try reflexivity; try discriminate; try congruence.
    destruct H as (_ & _ & H); congruence. }
  repeat split; intros; try reflexivity; try discriminate; try congruence.
Qed.

Lemma main_dispatch_witness :
  dispatched (ms4525_airspeed_main CLib.atoi [] (Some "restart"%string)) = print_usage.
Proof.
  apply (proj1 (proj2 (proj2 (proj2
           (main_dispatch CLib.atoi [] "restart"))))).
  repeat split; discriminate.
Defined.

(** ** What is published *)

Lemma collect_get_device_id (io : collect_io) (d : MEASAirspeed) :
  get_device_id (fst (collect io d)) = get_device_id d.
Proof.
  destruct (collect_takes_path io d); reflexivity.
Qed.

Lemma measurement_phase_get_device_id (ret : Z) (d : MEASAirspeed) :
  get_device_id (fst (measurement_phase ret d)) = get_device_id d.
Proof.
  rewrite measurement_phase_eq. unfold measure.
  destruct (negb (OK =? ret)); reflexivity.
Qed.

Lemma RunImpl_get_device_id (io : run_io) (d : MEASAirspeed) :
  get_device_id (fst (RunImpl io d)) = get_device_id d.
Proof.
  destruct (RunImpl_cases io d) as [(Hph & ->) | [(Hph & _ & ->) | [(Hph & _ & _ & ->) | (Hph & _ & _ & ->)]]];
    rewrite ?measurement_phase_get_device_id;
    cbn [fst get_device_id set_sensor_ok set_collect_phase];
    rewrite ?collect_get_device_id; reflexivity.
Qed.

(** A report in the topic after a collect that was not there before is the
    report of an accepted sample. *)
Lemma collect_new_report (io : collect_io) (d : MEASAirspeed) :
  _differential_pressure_pub (fst (collect io d)) = _differential_pressure_pub d \/
  (_differential_pressure_pub (fst (collect io d))
     = report_of io d :: _differential_pressure_pub d /\
   dT_raw_of (val io) <> 2047).
Proof.
  destruct (collect_takes_path io d); cbn; auto.
Qed.

Lemma report_of_well_formed (io : collect_io) (d : MEASAirspeed) :
  0 <= _comms_errors d -> dT_raw_of (val io) <> 2047 ->
  report_well_formed (get_device_id d) (report_of io d).
Proof.
  intros Hc HT. unfold report_well_formed.
  cbn [report_of device_id error_count temperature differential_pressure_pa].
  pose proof (dT_raw_of_range (val io)) as HrT. change (2 ^ 11) with 2048 in HrT.
  destruct (temperature_shape (dT_raw_of (val io))) as (Htf & Htl & Htu); [lia |].
  destruct (pressure_shape (dp_raw_of (val io)) (dp_raw_of_range (val io)))
    as (Hpf & _ & _ & Hpb).
  repeat split; assumption.
Qed.

Lemma RunImpl_topic_well_formed (dev_id : Z) (io : run_io) (d : MEASAirspeed) :
  topic_well_formed dev_id d -> topic_well_formed dev_id (fst (RunImpl io d)).
Proof.
  intros (Hid & Hc & Hf). unfold topic_well_formed.
  rewrite RunImpl_get_device_id, RunImpl_pub.
  pose proof (RunImpl_comms_errors_mono io d) as Hmono.
  split; [exact Hid | split; [lia |]].
  destruct (_collect_phase d); [| exact Hf].
  destruct (collect_new_report (io_collect io) d) as [-> | [-> HT]]; [exact Hf |].
  constructor; [| exact Hf].
  rewrite <- Hid. now apply report_of_well_formed.
Qed.

(** X17: every report a driver ever publishes names the driver's device,
    carries finite values, a temperature from -50 up to but not 150 degrees, a
    pressure of at most 1.25 psi (8618.45 Pa) either way and an error count
    that is not negative: no NaN, no infinity and no reading of a saturated
    sensor reaches the subscribers. *)
Theorem published_reports_well_formed (ios : list run_io) (d : MEASAirspeed) (dev_id : Z) :
  (topic_well_formed dev_id d -> topic_well_formed dev_id (run ios d)) /\
  Forall (report_well_formed dev_id)
    (_differential_pressure_pub (run ios (MEASAirspeed_new dev_id))).
Proof.
  split.
  - apply (run_invariant (topic_well_formed dev_id) (RunImpl_topic_well_formed dev_id)).
  - apply (run_invariant (topic_well_formed dev_id) (RunImpl_topic_well_formed dev_id)).
    split; [reflexivity | split; [cbn; lia | constructor]].
Qed.

Lemma published_reports_well_formed_witness :
  topic_well_formed 1 slow_collecting_driver /\
  topic_well_formed 1
    (run [step_of 0 normal_val 0; step_of 0 fault_val 0] slow_collecting_driver).
Proof.
  assert (topic_well_formed 1 slow_collecting_driver) as H.
  { split; [reflexivity | split; [cbn; lia | constructor]]. }
  split; [exact H |].
  exact (proj1 (published_reports_well_formed
                  [step_of 0 normal_val 0; step_of 0 fault_val 0]
                  slow_collecting_driver 1) H).
Defined.

(** ** Conversion time *)

(** X18: whenever a step leaves the driver in the COLLECT phase it has just
    run the measurement and asked for the conversion interval; so no collect
    is due sooner than one conversion interval after the command it answers,
    whatever the state and the poll interval. *)
Theorem collect_waits_for_conversion (io : run_io) (d : MEASAirspeed) (now : Z) :
  _collect_phase (fst (RunImpl io d)) = true ->
  snd (RunImpl io d) = ScheduleDelayed CONVERSION_INTERVAL /\
  (_sensor_ok (fst (RunImpl io d)) = true <-> io_measure_ret io = OK) /\
  wq_due (wq_step io {| wq_due := now; wq_driver := d |}) = now + CONVERSION_INTERVAL.
Proof.
  unfold wq_step. cbn [wq_driver wq_due].
  destruct (RunImpl_cases io d)
    as [(Hph & ->) | [(Hph & _ & ->) | [(Hph & _ & _ & ->) | (Hph & _ & _ & ->)]]];
    try (cbn; discriminate); intros _.
  - destruct (measurement_phase_facts (io_measure_ret io) d) as (_ & H2 & H3 & _).
    destruct (measurement_phase (io_measure_ret io) d) as [d1 s1].
    cbn [fst snd] in *. subst s1. repeat split; try apply H3; reflexivity.
  - destruct (measurement_phase_facts (io_measure_ret io)
                (set_collect_phase false (fst (collect (io_collect io) d))))
      as (_ & H2 & H3 & _).
    destruct (measurement_phase (io_measure_ret io)
                (set_collect_phase false (fst (collect (io_collect io) d)))) as [d1 s1].
    cbn [fst snd] in *. subst s1. repeat split; try apply H3; reflexivity.
Qed.

Lemma collect_waits_for_conversion_witness :
  _collect_phase (fst (RunImpl (step_of 0 normal_val 0) slow_collecting_driver)) = false /\
  _collect_phase (fst (RunImpl (step_of 0 normal_val 0) collecting_driver)) = true /\
  snd (RunImpl (step_of 0 normal_val 0) collecting_driver)
    = ScheduleDelayed CONVERSION_INTERVAL.
Proof.
  split; [reflexivity | split; [reflexivity |]].
  exact (proj1 (collect_waits_for_conversion (step_of 0 normal_val 0)
                  collecting_driver 0 eq_refl)).
Defined.
